(** * Host performance gate and PVF worker dispatch of the polkadot CLI

    Shallow embedding of [host_perf_check] and of the dispatch in [run]
    ([src/cli/src/command.rs]).  The code is modelled as a state and error
    monad over a [World]: the file system (keyed by resolved absolute
    paths, with the file contents), the current working directory, the
    result of [std::env::current_exe], a monotonic clock and a trace of the
    observable effects (log lines, pipeline stages, file creation, worker
    entry points, node service start).

    The three pipeline stages ([sp_maybe_compressed_blob::decompress],
    [polkadot_node_core_pvf::prevalidate], [polkadot_node_core_pvf::prepare])
    live in other crates: they are Section variables, each returning the
    wall-clock time it takes together with its outcome, so every theorem
    holds for every behaviour of the stages.  So is the time that passes
    between the two clock readings of a passed check.  Node start-up calls
    [create_runner] and [service::build_full] of other crates: each is
    given by its outcome and its effect on the file system, per command
    line.  A panic unwinding out of [run] is an error of its own.  The
    chain spec selection ([load_spec]) and the runtime selection of the
    [benchmark] and [try-runtime] subcommands are pure functions of the
    enabled cargo features.  The release build
    ([cfg(not(debug_assertions))]) is modelled, where [host_perf_check] and
    the [HostPerfCheck] subcommand exist. *)

From Stdlib Require Import Ascii.
From stdpp Require Import base gmap strings list.

Local Open Scope N_scope.

(** ** Rust results and the crate's error type *)

Inductive result (A E : Type) : Type :=
| Ok (a : A)
| Err (e : E).
Arguments Ok {A E} a.
Arguments Err {A E} e.

(** [sc_cli::Error], only the variant built in this file. *)
Inductive CliError : Type :=
| Input (msg : string).

(** [enum Error] of command.rs; the service variants are opaque here.
    [Panic] is not a variant of the Rust enum: it stands for a panic
    unwinding out of [run] with its message; no [?] produces it. *)
Inductive Error : Type :=
| PolkadotService
| SubstrateCli (e : CliError)
| SubstrateService
| Other (msg : string)
| Panic (msg : string).

(** ** Paths *)

(** A [PathBuf]: absolute or relative, and its components. *)
Record PathBuf := mkPath { p_abs : bool; p_comps : list string }.

(** [PathBuf::default()]: the empty relative path. *)
Definition path_default : PathBuf := mkPath false [].

(** [PathBuf::pop]: truncate to the parent; does nothing without one. *)
Definition path_pop (p : PathBuf) : PathBuf :=
  mkPath (p_abs p) (removelast (p_comps p)).

(** [PathBuf::join] with a single relative component. *)
Definition path_join (p : PathBuf) (c : string) : PathBuf :=
  mkPath (p_abs p) (p_comps p ++ [c]).

(** ** Durations and their [Debug] formatting *)

Record Duration := mkDuration { secs : N; nanos : N }.

Definition NANOS_PER_SEC : N := 1000000000.
Definition NANOS_PER_MILLI : N := 1000000.
Definition NANOS_PER_MICRO : N := 1000.

Definition Duration_from_secs (s : N) : Duration := mkDuration s 0.
Definition Duration_from_nanos (n : N) : Duration :=
  mkDuration (n / NANOS_PER_SEC) (n mod NANOS_PER_SEC).
Definition as_nanos (d : Duration) : N := secs d * NANOS_PER_SEC + nanos d.

(** The derived [PartialOrd] of [Duration]: lexicographic on [(secs, nanos)]. *)
Definition duration_le (a b : Duration) : bool :=
  (secs a <? secs b) || ((secs a =? secs b) && (nanos a <=? nanos b)).

Definition digit_char (d : N) : ascii := ascii_of_N (48 + d).

(** Decimal digits of a natural number ([{}] of a [u64]). *)
Fixpoint digits_fuel (fuel : nat) (n : N) (acc : string) : string :=
  match fuel with
  | O => acc
  | S f =>
      let acc' := String (digit_char (n mod 10)) acc in
      if n <? 10 then acc' else digits_fuel f (n / 10) acc'
  end.
Definition N_to_string (n : N) : string := digits_fuel 64 n "".

(** The digit loop of [fmt_decimal] with no precision: digits of the
    fractional part until it is exhausted (at most 9). *)
Fixpoint frac_digits (fuel : nat) (frac divisor : N) : string :=
  match fuel with
  | O => ""
  | S f =>
      if frac =? 0 then ""
      else String (digit_char (frac / divisor))
             (frac_digits f (frac mod divisor) (divisor / 10))
  end.

Definition fmt_decimal (integer frac divisor : N) (suffix : string) : string :=
  let fd := frac_digits 9 frac divisor in
  match fd with
  | EmptyString => N_to_string integer +:+ suffix
  | _ => N_to_string integer +:+ "." +:+ fd +:+ suffix
  end.

(** "µs" in UTF-8. *)
Definition micro_suffix : string :=
  String (ascii_of_N 194) (String (ascii_of_N 181) "s").

(** [impl Debug for Duration] ([{:?}]). *)
Definition duration_debug (d : Duration) : string :=
  if 0 <? secs d then fmt_decimal (secs d) (nanos d) (NANOS_PER_SEC / 10) "s"
  else if NANOS_PER_MILLI <=? nanos d then
    fmt_decimal (nanos d / NANOS_PER_MILLI) (nanos d mod NANOS_PER_MILLI)
      (NANOS_PER_MILLI / 10) "ms"
  else if NANOS_PER_MICRO <=? nanos d then
    fmt_decimal (nanos d / NANOS_PER_MICRO) (nanos d mod NANOS_PER_MICRO)
      (NANOS_PER_MICRO / 10) micro_suffix
  else fmt_decimal (nanos d) 0 1 "ns".

(** ** The world and the effect monad *)

Inductive Event : Type :=
| EvLog (msg : string)                  (** [info!] *)
| EvLoggerInit (colors : bool)          (** [LoggerBuilder::init] *)
| EvDecompress                          (** decompress stage invoked *)
| EvPrevalidate                         (** prevalidate stage invoked *)
| EvPrepare                             (** prepare stage invoked *)
| EvOpen (p : list string)              (** [OpenOptions::open] attempted *)
| EvPrepareWorker (socket_path : string) (** [prepare_worker_entrypoint] *)
| EvExecuteWorker (socket_path : string) (** [execute_worker_entrypoint] *)
| EvCreateRunner                        (** [cli.create_runner] *)
| EvBuildFull                           (** [service::build_full] *)
| EvSubcommand (name : string).         (** the other subcommands' glue *)

Record World := mkWorld {
  w_exe : option PathBuf;              (** [std::env::current_exe()] *)
  w_cwd : list string;                 (** current working directory *)
  w_fs : gmap (list string) (list Byte.byte); (** files and contents *)
  w_readonly : list (list string);     (** directories where creation fails *)
  w_clock : N;                         (** monotonic clock, nanoseconds *)
  w_trace : list Event                 (** observable effects, in order *)
}.

Definition M (A : Type) : Type := World -> result A Error * World.

Definition ret {A} (a : A) : M A := fun w => (Ok a, w).
Definition throw {A} (e : Error) : M A := fun w => (Err e, w).
Definition bind {A B} (m : M A) (k : A -> M B) : M B :=
  fun w => match m w with
           | (Ok a, w') => k a w'
           | (Err e, w') => (Err e, w')
           end.

(** [let x = m?; k] *)
Notation "'let?' x := m 'in' k" := (bind m (fun x => k))
  (at level 200, x name, m at level 100, k at level 200).

Definition emit (ev : Event) : World -> World := fun w =>
  mkWorld (w_exe w) (w_cwd w) (w_fs w) (w_readonly w) (w_clock w)
    (w_trace w ++ [ev]).

Definition tick (dt : N) : World -> World := fun w =>
  mkWorld (w_exe w) (w_cwd w) (w_fs w) (w_readonly w) (w_clock w + dt)
    (w_trace w).

Definition info (msg : string) : M unit := fun w => (Ok tt, emit (EvLog msg) w).

Definition current_exe : M (option PathBuf) := fun w => (Ok (w_exe w), w).

(** Resolution of a path against the current directory. *)
Definition resolve (cwd : list string) (p : PathBuf) : list string :=
  if p_abs p then p_comps p else cwd ++ p_comps p.

(** [Path::exists]: metadata only, the contents are not read. *)
Definition path_exists (p : PathBuf) : M bool :=
  fun w => (Ok (bool_decide (is_Some (w_fs w !! resolve (w_cwd w) p))), w).

(** [OpenOptions::new().create(true).write(true).open(p)]: opens an
    existing file unchanged, creates an empty one, or fails when its
    directory refuses creation. *)
Definition open_create_write (p : PathBuf) : M (result unit string) :=
  fun w =>
    let r := resolve (w_cwd w) p in
    let w1 := emit (EvOpen r) w in
    if bool_decide (is_Some (w_fs w !! r)) then (Ok (Ok tt), w1)
    else if bool_decide (removelast r ∈ w_readonly w) then
      (Ok (Err "Permission denied"), w1)
    else (Ok (Ok tt),
          mkWorld (w_exe w1) (w_cwd w1) (<[r := []]> (w_fs w1))
            (w_readonly w1) (w_clock w1) (w_trace w1)).

(** [Instant::now] and [Instant::elapsed]. *)
Definition instant_now : M N := fun w => (Ok (w_clock w), w).
Definition elapsed_since (start : N) : M Duration :=
  fun w => (Ok (Duration_from_nanos (w_clock w - start)), w).

(** A pipeline stage taking [cost] nanoseconds, its error mapped by
    [map_err] and propagated by [?]. *)
Definition stage {A} (ev : Event) (step : N * result A string)
    (wrap : string -> Error) : M A :=
  fun w =>
    let w' := tick (fst step) (emit ev w) in
    match snd step with
    | Ok a => (Ok a, w')
    | Err e => (Err (wrap e), w')
    end.

(** A computation that returns or panics. *)
Inductive Outcome (A : Type) :=
| Returns (a : A)
| Panics (msg : string).
Arguments Returns {A} a.
Arguments Panics {A} msg.

(** A panic raised inside [run] unwinds out of it. *)
Definition lift_outcome {A} (o : Outcome A) : M A :=
  match o with
  | Returns a => ret a
  | Panics m => throw (Panic m)
  end.

(** Time passing between two statements. *)
Definition pass_time (dt : N) : M unit := fun w => (Ok tt, tick dt w).

(** A call into another crate: it is recorded as [ev], changes the file
    system by [f] and returns [r]. *)
Definition external {A} (ev : Event) (r : result A Error)
    (f : gmap (list string) (list Byte.byte) -> gmap (list string) (list Byte.byte))
    : M A :=
  fun w => (r, mkWorld (w_exe w) (w_cwd w) (f (w_fs w)) (w_readonly w) (w_clock w)
                 (w_trace w ++ [ev])).

(** The message of Rust's bounds check on slice indexing. *)
Definition index_out_of_bounds (len idx : nat) : string :=
  "index out of bounds: the len is " +:+ N_to_string (N.of_nat len) +:+
  " but the index is " +:+ N_to_string (N.of_nat idx).

(** [v[i]] on a [Vec]. *)
Definition vec_index (v : list N) (i : nat) : Outcome N :=
  match v !! i with
  | Some a => Returns a
  | None => Panics (index_out_of_bounds (length v) i)
  end.

(** [grandpa_pause] in [run_node_inner]: [None] for an empty vector, else
    [Some((v[0], v[1]))], the indices evaluated left to right. *)
Definition grandpa_pause_of (v : list N) : Outcome (option (N * N)) :=
  match v with
  | [] => Returns None
  | _ =>
      match vec_index v 0 with
      | Panics m => Panics m
      | Returns a =>
          match vec_index v 1 with
          | Panics m => Panics m
          | Returns b => Returns (Some (a, b))
          end
      end
  end.

Definition logger_init (colors : bool) : M unit :=
  fun w => (Ok tt, emit (EvLoggerInit colors) w).

Definition trace_event (ev : Event) : M unit := fun w => (Ok tt, emit ev w).

(** ** [host_perf_check] *)

Definition PERF_CHECK_TIME_LIMIT : Duration := Duration_from_secs 20.
Definition CODE_SIZE_LIMIT : N := 1024 ^ 3.
Definition CHECK_PASSED_FILE_NAME : string := ".perf_check_passed".

(** [current_exe().map(|mut path| { path.pop(); path }).unwrap_or_default()
     .join(CHECK_PASSED_FILE_NAME)] *)
Definition check_passed_path_of (exe : option PathBuf) : PathBuf :=
  path_join (match exe with Some p => path_pop p | None => path_default end)
    CHECK_PASSED_FILE_NAME.

Definition MSG_DECOMPRESS : string := "Failed to decompress test wasm code: ".
Definition MSG_PREVALIDATE : string :=
  "Failed to create runtime blob from the decompressed code: ".
Definition MSG_PREPARE : string := "Failed to precompile test wasm code: ".
Definition MSG_TIME : string := "Performance check not passed: exceeded the ".

Definition time_limit_message (elapsed : Duration) : string :=
  MSG_TIME +:+ duration_debug PERF_CHECK_TIME_LIMIT +:+
  " time limit, elapsed: " +:+ duration_debug elapsed.

Section PerfCheck.

(** The pipeline of the PVF prepare worker, from other crates: each stage
    returns the nanoseconds it takes and its outcome ([err.to_string()] on
    failure). *)
Variables RuntimeBlob Artifact : Type.
Variable decompress : list Byte.byte -> N -> N * result (list Byte.byte) string.
Variable prevalidate : list Byte.byte -> N * result RuntimeBlob string.
Variable prepare : RuntimeBlob -> N * result Artifact string.
(** [include_bytes!(".../kusama_runtime.compact.compressed.wasm")] *)
Variable WASM_CODE : list Byte.byte.
(** The nanoseconds that pass between the comparison with the limit and
    the second [start.elapsed()] reading logged on success. *)
Variable log_gap : N.

Definition host_perf_check : M unit :=
  let? exe := current_exe in
  let check_passed_path := check_passed_path_of exe in
  let? ex := path_exists check_passed_path in
  if ex then
    let? _ := info "Performance check skipped: already passed" in
    ret tt
  else
    let? _ := info "Running the performance check..." in
    let? start := instant_now in
    let? code := stage EvDecompress (decompress WASM_CODE CODE_SIZE_LIMIT)
                   (fun err => Other (MSG_DECOMPRESS +:+ err)) in
    let? blob := stage EvPrevalidate (prevalidate code)
                   (fun err => Other (MSG_PREVALIDATE +:+ err)) in
    let? _ := stage EvPrepare (prepare blob)
                (fun err => Other (MSG_PREPARE +:+ err)) in
    let? elapsed := elapsed_since start in
    if duration_le elapsed PERF_CHECK_TIME_LIMIT then
      let? _ := pass_time log_gap in
      let? e2 := elapsed_since start in
      let? _ := info ("Performance check passed, elapsed: " +:+ duration_debug e2) in
      (* `touch` a dummy file; the result is discarded ([let _ = ...]). *)
      let? _ := open_create_write check_passed_path in
      ret tt
    else throw (Other (time_limit_message elapsed)).

(** ** Dispatch in [run] *)

Inductive Subcommand : Type :=
| BuildSpec | CheckBlock | ExportBlocks | ExportState | ImportBlocks
| PurgeChain | Revert
| PvfPrepareWorker (socket_path : string)
| PvfExecuteWorker (socket_path : string)
| Benchmark | HostPerfCheck | Key | TryRuntime.

(** The parsed command line and what [create_runner] derives from it. *)
Record Cli := mkCli {
  subcommand : option Subcommand;
  role_is_light : bool;        (** [config.role] is [Role::Light] *)
  chain_is_kusama : bool       (** [chain_spec.is_kusama()] *)
}.

Definition subcommand_name (s : Subcommand) : string :=
  match s with
  | BuildSpec => "build-spec" | CheckBlock => "check-block"
  | ExportBlocks => "export-blocks" | ExportState => "export-state"
  | ImportBlocks => "import-blocks" | PurgeChain => "purge-chain"
  | Revert => "revert" | PvfPrepareWorker _ => "prepare-worker"
  | PvfExecuteWorker _ => "execute-worker" | Benchmark => "benchmark"
  | HostPerfCheck => "host-perf-check" | Key => "key"
  | TryRuntime => "try-runtime"
  end.

Definition kusama_banner : list string :=
  ["----------------------------"; "This chain is not in any way";
   "      endorsed by the       "; "     KUSAMA FOUNDATION      ";
   "----------------------------"].

Fixpoint info_all (msgs : list string) : M unit :=
  match msgs with
  | [] => ret tt
  | m :: ms => let? _ := info m in info_all ms
  end.

(** What node start-up gets from [cli.run] and from the other crates for a
    command line: the [--grandpa-pause] values, the outcome of
    [cli.create_runner(&cli.run.base).map_err(Error::from)] (e.g. a
    [load_spec] error) and its file-system effects (base path), and the
    outcome of [service::build_full] run by [run_node_until_exit] and its
    file-system effects (database, keystore). *)
Record NodeStart := mkNodeStart {
  grandpa_pause : list N;
  create_runner_result : result unit Error;
  create_runner_fs : gmap (list string) (list Byte.byte) -> gmap (list string) (list Byte.byte);
  run_node_result : result unit Error;
  run_node_fs : gmap (list string) (list Byte.byte) -> gmap (list string) (list Byte.byte)
}.

Variable node : Cli -> NodeStart.

(** [run_node_inner]; [set_default_ss58_version] sets a process-wide
    default that nothing here observes. *)
Definition run_node_inner (cli : Cli) : M unit :=
  let ns := node cli in
  let? _ := external EvCreateRunner (create_runner_result ns) (create_runner_fs ns) in
  let? _ := lift_outcome (grandpa_pause_of (grandpa_pause ns)) in
  let? _ := (if chain_is_kusama cli then info_all kusama_banner else ret tt) in
  if role_is_light cli then throw (Other "Light client not enabled")
  else external EvBuildFull (run_node_result ns) (run_node_fs ns).

Definition PREPARE_UNSUPPORTED : string :=
  "PVF preparation workers are not supported under this platform".
Definition EXECUTE_UNSUPPORTED : string :=
  "PVF execution workers are not supported under this platform".

(** [run] after [Cli::from_args()], for a target that is Android
    ([target_android]) or not.  The subcommands outside this subsystem are
    argument-routing glue and are recorded as one opaque event. *)
Definition run (target_android : bool) (cli : Cli) : M unit :=
  match subcommand cli with
  | None => run_node_inner cli
  | Some (PvfPrepareWorker socket_path) =>
      let? _ := logger_init false in
      if target_android then throw (SubstrateCli (Input PREPARE_UNSUPPORTED))
      else trace_event (EvPrepareWorker socket_path)
  | Some (PvfExecuteWorker socket_path) =>
      let? _ := logger_init false in
      if target_android then throw (SubstrateCli (Input EXECUTE_UNSUPPORTED))
      else trace_event (EvExecuteWorker socket_path)
  | Some HostPerfCheck =>
      let? _ := logger_init true in
      host_perf_check
  | Some s => trace_event (EvSubcommand (subcommand_name s))
  end.

End PerfCheck.

(** ** Observations on runs *)

(** The resolved location of the sentinel file in a world. *)
Definition sentinel (w : World) : list string :=
  resolve (w_cwd w) (check_passed_path_of (w_exe w)).

(** The messages logged in a trace. *)
Fixpoint logs (t : list Event) : list string :=
  match t with
  | [] => []
  | EvLog m :: t' => m :: logs t'
  | _ :: t' => logs t'
  end.

(** Events that the performance gate itself may produce. *)
Definition gate_event (ev : Event) : bool :=
  match ev with
  | EvLog _ | EvLoggerInit _ | EvDecompress | EvPrevalidate | EvPrepare
  | EvOpen _ => true
  | _ => false
  end.

(** Events of the pipeline and of the sentinel file. *)
Definition pipeline_event (ev : Event) : bool :=
  match ev with
  | EvDecompress | EvPrevalidate | EvPrepare | EvOpen _ => true
  | _ => false
  end.

(** Events of [run] outside the gate: the runner, the Kusama banner, the
    node service, the logger, the workers and the other subcommands. *)
Definition startup_event (ev : Event) : bool :=
  match ev with
  | EvCreateRunner | EvBuildFull | EvLoggerInit _ | EvPrepareWorker _
  | EvExecuteWorker _ | EvSubcommand _ => true
  | EvLog m => bool_decide (m ∈ kusama_banner)
  | EvDecompress | EvPrevalidate | EvPrepare | EvOpen _ => false
  end.

Fixpoint starts_with (pre s : string) : bool :=
  match pre, s with
  | EmptyString, _ => true
  | String a pre', String b s' => Ascii.eqb a b && starts_with pre' s'
  | String _ _, EmptyString => false
  end.

(** Failure kinds of the gate, told apart by the message prefix. *)
Inductive GateFailure := DecompressFailed | PrevalidateFailed | PrepareFailed | TooSlow.

Definition gate_failure_kind (e : Error) : option GateFailure :=
  match e with
  | Other m =>
      if starts_with MSG_DECOMPRESS m then Some DecompressFailed
      else if starts_with MSG_PREVALIDATE m then Some PrevalidateFailed
      else if starts_with MSG_PREPARE m then Some PrepareFailed
      else if starts_with MSG_TIME m then Some TooSlow
      else None
  | _ => None
  end.

(** Concrete stages used to exercise the theorems. *)
Definition demo_decompress (cost : N) (ok : bool)
    : list Byte.byte -> N -> N * result (list Byte.byte) string :=
  fun _ _ => (cost, if ok then Ok [] else Err "corrupt stream").
Definition demo_prevalidate (cost : N) : list Byte.byte -> N * result unit string :=
  fun _ => (cost, Ok tt).
Definition demo_prepare (cost : N) : unit -> N * result unit string :=
  fun _ => (cost, Ok tt).

Definition demo_exe : PathBuf := mkPath true ["usr"; "bin"; "polkadot"].

Definition demo_world (exe : option PathBuf) (cwd : list string)
    (fs : gmap (list string) (list Byte.byte)) (ro : list (list string)) : World :=
  mkWorld exe cwd fs ro 0 [].

(** One millisecond between the two clock readings of a passed check. *)
Definition demo_log_gap : N := 1000000.

Definition demo_hpc (c1 c2 c3 : N) (ok : bool) : M unit :=
  host_perf_check unit unit (demo_decompress c1 ok) (demo_prevalidate c2)
    (demo_prepare c3) [] demo_log_gap.

(** A node with the given GRANDPA pause values and runner outcome, whose
    service starts without error; neither touches the file system. *)
Definition demo_node_with (pause : list N) (runner : result unit Error) (cli : Cli)
    : NodeStart :=
  mkNodeStart pause runner (fun fs => fs) (Ok tt) (fun fs => fs).

Definition demo_node : Cli -> NodeStart := demo_node_with [] (Ok tt).


Definition demo_run (target_android : bool) (cli : Cli) : M unit :=
  run unit unit (demo_decompress 0 true) (demo_prevalidate 0) (demo_prepare 0) []
    demo_log_gap demo_node target_android cli.

Definition demo_sentinel : list string := ["usr"; "bin"; ".perf_check_passed"].

(** The same world with another file system. *)
Definition set_fs (w : World) (fs : gmap (list string) (list Byte.byte)) : World :=
  mkWorld (w_exe w) (w_cwd w) fs (w_readonly w) (w_clock w) (w_trace w).

(** The same world with another current directory. *)
Definition set_cwd (w : World) (cwd : list string) : World :=
  mkWorld (w_exe w) cwd (w_fs w) (w_readonly w) (w_clock w) (w_trace w).

(** ** Chain spec selection ([get_exec_name], [load_spec]) *)

(** The cargo features the CLI is built with. *)
Record Features := mkFeatures {
  kusama_native : bool; polkadot_native : bool;
  rococo_native : bool; westend_native : bool }.

(** [cli.run.force_rococo], [force_kusama], [force_westend]. *)
Record RunFlags := mkRunFlags {
  force_rococo : bool; force_kusama : bool; force_westend : bool }.

(** The chain spec types of [service]. *)
Inductive SpecKind := PolkadotSpec | RococoSpec | KusamaSpec | WestendSpec.

(** What [load_spec] returns: a built-in spec, named by the
    [service::chain_spec] function that builds it, or a spec read from a
    JSON file as one of the spec types. *)
Inductive LoadedSpec :=
| Builtin (config_fn : string)
| FromJson (kind : SpecKind) (path : string).

(** [str::ends_with]. *)
Definition ends_with (suf s : string) : bool :=
  let n := String.length s in
  let m := String.length suf in
  (m <=? n)%nat && String.eqb (String.substring (n - m) m s) suf.

(** [get_exec_name]: the file name of [current_exe()] ([None] when that
    fails or has no file name). *)
Definition get_exec_name (exe : option PathBuf) : option string :=
  match exe with Some p => last (p_comps p) | None => None end.

Definition KNOWN_CHAINS : list string := ["polkadot"; "kusama"; "westend"; "rococo"].

(** [["polkadot", "kusama", "westend", "rococo"].iter().cloned()
     .find(|&chain| n.starts_with(chain)).unwrap_or("polkadot")] *)
Definition default_chain (n : string) : string :=
  match List.find (fun chain => starts_with chain n) KNOWN_CHAINS with
  | Some c => c
  | None => "polkadot"
  end.

Definition NO_RUNTIME_PANIC : string :=
  "No runtime feature (polkadot, kusama, westend, rococo) is enabled".

Definition DEV_ONLY_ERROR_PATTERN : string :=
  "can only use subcommand with --chain [polkadot-dev, kusama-dev, westend-dev, rococo-dev, wococo-dev], got ".

Section ChainSpec.

(** The [service::chain_spec::*_config()] constructors, by name. *)
Variable config : string -> result unit string.
(** [<Kind>ChainSpec::from_json_file(path)]: the id of the spec read, or
    the error. *)
Variable from_json_file : SpecKind -> string -> result string string.
(** [IdentifyVariant] on a chain spec id. *)
Variables is_kusama is_westend is_rococo is_wococo is_dev : string -> bool.

Definition builtin (config_fn : string) : result LoadedSpec string :=
  match config config_fn with
  | Ok _ => Ok (Builtin config_fn)
  | Err e => Err e
  end.

Definition only_supported_with (name feature : string) : result LoadedSpec string :=
  Err ("`" +:+ name +:+ "` only supported with `" +:+ feature +:+
       "` feature enabled.").

Definition reread (kind : SpecKind) (path : string) : result LoadedSpec string :=
  match from_json_file kind path with
  | Ok _ => Ok (FromJson kind path)
  | Err e => Err e
  end.

(** The [path => ...] arm of [load_spec]. *)
Definition load_json (flags : RunFlags) (path : string) : result LoadedSpec string :=
  match from_json_file PolkadotSpec path with
  | Err e => Err e
  | Ok id =>
      if force_rococo flags || is_rococo id || is_wococo id then reread RococoSpec path
      else if force_kusama flags || is_kusama id then reread KusamaSpec path
      else if force_westend flags || is_westend id then reread WestendSpec path
      else Ok (FromJson PolkadotSpec path)
  end.

(** The [match id] of [load_spec], its [#[cfg(feature)]] arms kept or
    dropped by [feat]. *)
Definition load_spec_id (feat : Features) (flags : RunFlags) (id : string)
    : result LoadedSpec string :=
  let K := kusama_native feat in
  let P := polkadot_native feat in
  let R := rococo_native feat in
  let W := westend_native feat in
  if String.eqb id "kusama" then builtin "kusama_config"
  else if K && String.eqb id "kusama-dev" then builtin "kusama_development_config"
  else if K && String.eqb id "kusama-local" then builtin "kusama_local_testnet_config"
  else if K && String.eqb id "kusama-staging" then builtin "kusama_staging_testnet_config"
  else if negb K && starts_with "kusama-" id && negb (ends_with ".json" id) then
    only_supported_with id "kusama-native"
  else if String.eqb id "polkadot" then builtin "polkadot_config"
  else if P && (String.eqb id "polkadot-dev" || String.eqb id "dev") then
    builtin "polkadot_development_config"
  else if P && String.eqb id "polkadot-local" then builtin "polkadot_local_testnet_config"
  else if P && String.eqb id "polkadot-staging" then
    builtin "polkadot_staging_testnet_config"
  else if String.eqb id "rococo" then builtin "rococo_config"
  else if R && String.eqb id "rococo-dev" then builtin "rococo_development_config"
  else if R && String.eqb id "rococo-local" then builtin "rococo_local_testnet_config"
  else if R && String.eqb id "rococo-staging" then builtin "rococo_staging_testnet_config"
  else if negb R && starts_with "rococo-" id && negb (ends_with ".json" id) then
    only_supported_with id "rococo-native"
  else if String.eqb id "westend" then builtin "westend_config"
  else if W && String.eqb id "westend-dev" then builtin "westend_development_config"
  else if W && String.eqb id "westend-local" then builtin "westend_local_testnet_config"
  else if W && String.eqb id "westend-staging" then
    builtin "westend_staging_testnet_config"
  else if negb W && starts_with "westend-" id && negb (ends_with ".json" id) then
    only_supported_with id "westend-native"
  else if String.eqb id "wococo" then builtin "wococo_config"
  else if R && String.eqb id "wococo-dev" then builtin "wococo_development_config"
  else if R && String.eqb id "wococo-local" then builtin "wococo_local_testnet_config"
  else if negb R && starts_with "wococo-" id then only_supported_with id "rococo-native"
  else load_json flags id.

(** [SubstrateCli::load_spec] for [Cli]. *)
Definition load_spec (feat : Features) (flags : RunFlags) (exe : option PathBuf)
    (id : string) : result LoadedSpec string :=
  let id :=
    if String.eqb id "" then
      default_chain (match get_exec_name exe with Some n => n | None => "" end)
    else id in
  load_spec_id feat flags id.

(** ** Runtime selection *)

Inductive Runtime := KusamaRuntime | WestendRuntime | RococoRuntime | PolkadotRuntime.

(** [SubstrateCli::native_runtime_version]: the runtime whose [VERSION] is
    returned for a chain spec id. *)
Definition native_runtime_version (feat : Features) (spec_id : string) : Outcome Runtime :=
  if kusama_native feat && is_kusama spec_id then Returns KusamaRuntime
  else if westend_native feat && is_westend spec_id then Returns WestendRuntime
  else if rococo_native feat && (is_rococo spec_id || is_wococo spec_id) then
    Returns RococoRuntime
  else if polkadot_native feat then Returns PolkadotRuntime
  else Panics NO_RUNTIME_PANIC.

(** [ensure_dev]. *)
Definition ensure_dev (spec_id : string) : result unit string :=
  if is_dev spec_id then Ok tt else Err (DEV_ONLY_ERROR_PATTERN +:+ spec_id).

(** The runtime chosen after [ensure_dev] in the [Benchmark] and
    [TryRuntime] arms: kusama, westend, else polkadot, else a panic. *)
Definition dev_runtime_dispatch (feat : Features) (spec_id : string) : Outcome Runtime :=
  if kusama_native feat && is_kusama spec_id then Returns KusamaRuntime
  else if westend_native feat && is_westend spec_id then Returns WestendRuntime
  else if polkadot_native feat then Returns PolkadotRuntime
  else Panics NO_RUNTIME_PANIC.

(** The [Benchmark] arm of [run], after [create_runner] gave the chain spec
    id ([runner]): [Returns (Ok rt)] runs the benchmark of runtime [rt]. *)
Definition benchmark_cmd (feat : Features) (runner : result string Error)
    : Outcome (result Runtime Error) :=
  match runner with
  | Err e => Returns (Err e)
  | Ok spec_id =>
      match ensure_dev spec_id with
      | Err e => Returns (Err (Other e))
      | Ok _ =>
          match dev_runtime_dispatch feat spec_id with
          | Returns rt => Returns (Ok rt)
          | Panics m => Panics m
          end
      end
  end.

(** The [TryRuntime] arm with the [try-runtime] feature: the task manager
    is created ([task_manager]) before [ensure_dev]. *)
Definition try_runtime_cmd (feat : Features) (runner : result string Error)
    (task_manager : result unit Error) : Outcome (result Runtime Error) :=
  match runner with
  | Err e => Returns (Err e)
  | Ok spec_id =>
      match task_manager with
      | Err e => Returns (Err e)
      | Ok _ =>
          match ensure_dev spec_id with
          | Err e => Returns (Err (Other e))
          | Ok _ =>
              match dev_runtime_dispatch feat spec_id with
              | Returns rt => Returns (Ok rt)
              | Panics m => Panics m
              end
          end
      end
  end.

End ChainSpec.

(** Concrete chain spec constructors and variants used to exercise the
    theorems: every built-in spec builds, one file "spec.json" holds a spec
    with id "local_testnet", and the variants are told by id prefixes. *)
Definition demo_config : string -> result unit string := fun _ => Ok tt.
Definition demo_from_json : SpecKind -> string -> result string string :=
  fun _ path => if String.eqb path "spec.json" then Ok "local_testnet"
                else Err "No such file or directory (os error 2)".
Definition demo_is_kusama (id : string) : bool := starts_with "kusama" id || starts_with "ksm" id.
Definition demo_is_westend (id : string) : bool := starts_with "westend" id || starts_with "wnd" id.
Definition demo_is_rococo (id : string) : bool := starts_with "rococo" id || starts_with "rco" id.
Definition demo_is_wococo (id : string) : bool := starts_with "wococo" id || starts_with "wco" id.
Definition demo_is_dev (id : string) : bool := ends_with "dev" id.
Definition demo_flags : RunFlags := mkRunFlags false false false.

(** A world where the gate has not run yet. *)
Definition demo_gate_world : World := demo_world (Some demo_exe) ["home"] ∅ [].

(** ** Lemmas *)

Ltac unfold_m :=
  unfold host_perf_check, bind, ret, throw, info, current_exe, path_exists,
    instant_now, elapsed_since, stage, open_create_write, emit, tick in *;
  simpl in *.

Lemma duration_le_limit (n : N) :
  duration_le (Duration_from_nanos n) PERF_CHECK_TIME_LIMIT = (n <=? 20000000000).
Proof.
  unfold duration_le, Duration_from_nanos, PERF_CHECK_TIME_LIMIT,
    Duration_from_secs, NANOS_PER_SEC; simpl.
  pose proof (N.div_mod n 1000000000 ltac:(lia)) as Hdm.
  pose proof (N.mod_lt n 1000000000 ltac:(lia)) as Hlt.
  set (q := n / 1000000000) in *; set (r := n mod 1000000000) in *.
  destruct (q <? 20) eqn:E1; destruct (q =? 20) eqn:E2;
    destruct (r <=? 0) eqn:E3; destruct (n <=? 20000000000) eqn:E4;
    simpl; try reflexivity;
    rewrite ?N.ltb_lt, ?N.ltb_ge, ?N.eqb_eq, ?N.eqb_neq, ?N.leb_le, ?N.leb_gt in *;
    lia.
Qed.

Lemma starts_with_app (pre s : string) : starts_with pre (pre +:+ s) = true.
Proof.
  induction pre as [|a pre IH]; simpl; [reflexivity|].
  rewrite IH, Ascii.eqb_refl. reflexivity.
Qed.

Lemma clock_elapsed (t c1 c2 c3 : N) : t + c1 + c2 + c3 - t = c1 + c2 + c3.
Proof. lia. Qed.

Lemma clock_elapsed_later (t c1 c2 c3 g : N) :
  t + c1 + c2 + c3 + g - t = c1 + c2 + c3 + g.
Proof. lia. Qed.

Section Proofs.
Variables RuntimeBlob Artifact : Type.
Variable decompress : list Byte.byte -> N -> N * result (list Byte.byte) string.
Variable prevalidate : list Byte.byte -> N * result RuntimeBlob string.
Variable prepare : RuntimeBlob -> N * result Artifact string.
Variable WASM_CODE : list Byte.byte.
Variable log_gap : N.
Variable node : Cli -> NodeStart.

Abbreviation hpc := (host_perf_check RuntimeBlob Artifact decompress prevalidate prepare WASM_CODE log_gap).

(** C1: when the sentinel file exists, the gate returns [Ok] and only logs
    that it was skipped: none of decompress, prevalidate or prepare runs and
    the file system is left as it is. *)
Theorem host_perf_check_skips_when_passed (w : World) :
  is_Some (w_fs w !! sentinel w) ->
  hpc w = (Ok tt, emit (EvLog "Performance check skipped: already passed") w).
Proof.
  intros Hs. unfold sentinel in Hs.
  unfold host_perf_check, bind, current_exe, path_exists, info, ret.
  rewrite bool_decide_eq_true_2 by exact Hs. reflexivity.
Qed.

(** The only change of the file system by the gate: creating the absent
    sentinel after in-time success. *)
Lemma host_perf_check_fs_effect (w : World) r w' :
  hpc w = (r, w') ->
  (forall e, r = Err e -> w_fs w' = w_fs w) /\
  (w_fs w' = w_fs w \/
   exists c1 code c2 blob c3 art,
     decompress WASM_CODE CODE_SIZE_LIMIT = (c1, Ok code) /\
     prevalidate code = (c2, Ok blob) /\ prepare blob = (c3, Ok art) /\
     c1 + c2 + c3 <= 20000000000 /\ r = Ok tt /\
     w_fs w !! sentinel w = None /\
     w_fs w' = <[sentinel w := []]> (w_fs w)).
Proof.
  intros H. unfold sentinel. unfold_m.
  set (sp := resolve (w_cwd w) (check_passed_path_of (w_exe w))) in *.
  destruct (bool_decide _) eqn:Ex.
  { injection H as <- <-. simpl. auto. }
  destruct (decompress WASM_CODE CODE_SIZE_LIMIT) as [c1 [code|e1]] eqn:Ed; simpl in H.
  2:{ injection H as <- <-. simpl. auto. }
  destruct (prevalidate code) as [c2 [blob|e2]] eqn:Ev; simpl in H.
  2:{ injection H as <- <-. simpl. auto. }
  destruct (prepare blob) as [c3 [art|e3]] eqn:Ep; simpl in H.
  2:{ injection H as <- <-. simpl. auto. }
  rewrite clock_elapsed, duration_le_limit in H.
  destruct (c1 + c2 + c3 <=? 20000000000) eqn:Et; simpl in H.
  2:{ injection H as <- <-. simpl. auto. }
  fold sp in H. rewrite Ex in H.
  destruct (bool_decide (removelast sp ∈ w_readonly w)) eqn:Ero; simpl in H;
    injection H as <- <-; simpl; split; try (intros ? [=]); auto.
  right. exists c1, code, c2, blob, c3, art.
  apply N.leb_le in Et. apply bool_decide_eq_false_1 in Ex.
  repeat split; auto. by apply eq_None_not_Some.
Qed.

(** A gate that returns [Ok] found the sentinel, or ran all three stages
    successfully within the limit. *)
Lemma host_perf_check_ok_inv (w : World) w' :
  hpc w = (Ok tt, w') ->
  is_Some (w_fs w !! sentinel w) \/
  exists c1 code c2 blob c3 art,
    decompress WASM_CODE CODE_SIZE_LIMIT = (c1, Ok code) /\
    prevalidate code = (c2, Ok blob) /\ prepare blob = (c3, Ok art) /\
    c1 + c2 + c3 <= 20000000000.
Proof.
  intros H. unfold sentinel. unfold_m.
  destruct (bool_decide _) eqn:Ex; [left; exact (bool_decide_eq_true_1 _ Ex)|].
  destruct (decompress WASM_CODE CODE_SIZE_LIMIT) as [c1 [code|e1]] eqn:Ed; simpl in H;
    [|discriminate H].
  destruct (prevalidate code) as [c2 [blob|e2]] eqn:Ev; simpl in H; [|discriminate H].
  destruct (prepare blob) as [c3 [art|e3]] eqn:Ep; simpl in H; [|discriminate H].
  rewrite clock_elapsed, duration_le_limit in H.
  destruct (c1 + c2 + c3 <=? 20000000000) eqn:Et; simpl in H; [|discriminate H].
  right. exists c1, code, c2, blob, c3, art. apply N.leb_le in Et. repeat split; assumption.
Qed.

(** C2: the only change the gate makes to the file system is creating the
    (absent) sentinel file, and it does so only when decompress, prevalidate
    and prepare all succeed within the 20 second limit; when the sentinel is
    absent, a failing stage or a run over the limit makes the gate return
    an error, and whenever it returns an error the file system is
    unchanged. *)
Theorem host_perf_check_sentinel_only_on_success (w : World) r w' :
  hpc w = (r, w') ->
  (forall e, r = Err e -> w_fs w' = w_fs w) /\
  (w_fs w' = w_fs w \/
   exists c1 code c2 blob c3 art,
     decompress WASM_CODE CODE_SIZE_LIMIT = (c1, Ok code) /\
     prevalidate code = (c2, Ok blob) /\ prepare blob = (c3, Ok art) /\
     c1 + c2 + c3 <= 20000000000 /\ r = Ok tt /\
     w_fs w !! sentinel w = None /\
     w_fs w' = <[sentinel w := []]> (w_fs w)) /\
  (w_fs w !! sentinel w = None ->
   (forall c e, decompress WASM_CODE CODE_SIZE_LIMIT = (c, Err e) ->
      exists err, r = Err err) /\
   (forall c1 code c e, decompress WASM_CODE CODE_SIZE_LIMIT = (c1, Ok code) ->
      prevalidate code = (c, Err e) -> exists err, r = Err err) /\
   (forall c1 code c2 blob c e, decompress WASM_CODE CODE_SIZE_LIMIT = (c1, Ok code) ->
      prevalidate code = (c2, Ok blob) -> prepare blob = (c, Err e) ->
      exists err, r = Err err) /\
   (forall c1 code c2 blob c3 art, decompress WASM_CODE CODE_SIZE_LIMIT = (c1, Ok code) ->
      prevalidate code = (c2, Ok blob) -> prepare blob = (c3, Ok art) ->
      20000000000 < c1 + c2 + c3 -> exists err, r = Err err)).
Proof.
  intros H.
  destruct (host_perf_check_fs_effect w r w' H) as [He Hf].
  split; [exact He|split; [exact Hf|]].
  intros Hs.
  assert (Hr : r = Ok tt -> exists c1 code c2 blob c3 art,
    decompress WASM_CODE CODE_SIZE_LIMIT = (c1, Ok code) /\
    prevalidate code = (c2, Ok blob) /\ prepare blob = (c3, Ok art) /\
    c1 + c2 + c3 <= 20000000000).
  { intros ->. destruct (host_perf_check_ok_inv w w' H) as [Hp|Hp]; [|exact Hp].
    rewrite Hs in Hp. destruct Hp as [? Hp]. discriminate Hp. }
  destruct r as [[]|err]; [|repeat split; intros; eauto].
  destruct (Hr eq_refl) as (c1 & code & c2 & blob & c3 & art & Ed & Ev & Ep & Hle).
  repeat split.
  - intros c e Hd. congruence.
  - intros c1' code' c e Hd Hv. rewrite Ed in Hd. injection Hd as <- <-. congruence.
  - intros c1' code' c2' blob' c e Hd Hv Hp. rewrite Ed in Hd. injection Hd as <- <-.
    rewrite Ev in Hv. injection Hv as <- <-. congruence.
  - intros c1' code' c2' blob' c3' art' Hd Hv Hp Ht.
    rewrite Ed in Hd. injection Hd as <- <-. rewrite Ev in Hv. injection Hv as <- <-.
    rewrite Ep in Hp. injection Hp as <- <-. lia.
Qed.


(** C3: when the pipeline succeeds but takes more than 20 seconds, the gate
    fails with a message giving the limit ("20s") and the measured time,
    and leaves the file system unchanged. *)
Theorem host_perf_check_too_slow_message (w : World) c1 code c2 blob c3 art :
  w_fs w !! sentinel w = None ->
  decompress WASM_CODE CODE_SIZE_LIMIT = (c1, Ok code) ->
  prevalidate code = (c2, Ok blob) ->
  prepare blob = (c3, Ok art) ->
  20000000000 < c1 + c2 + c3 ->
  fst (hpc w) =
    Err (Other ("Performance check not passed: exceeded the " +:+ "20s" +:+
                " time limit, elapsed: " +:+
                duration_debug (Duration_from_nanos (c1 + c2 + c3)))) /\
  w_fs (snd (hpc w)) = w_fs w.
Proof.
  intros Hs Ed Ev Ep Hlt. unfold sentinel in Hs. unfold_m.
  rewrite bool_decide_eq_false_2 by (rewrite Hs; apply is_Some_None).
  rewrite Ed; simpl; rewrite Ev; simpl; rewrite Ep; simpl.
  rewrite clock_elapsed, duration_le_limit.
  replace (c1 + c2 + c3 <=? 20000000000) with false
    by (symmetry; apply N.leb_gt; lia).
  split; reflexivity.
Qed.

Lemma starts_with_other_stage (e : string) :
  gate_failure_kind (Other (MSG_DECOMPRESS +:+ e)) = Some DecompressFailed /\
  gate_failure_kind (Other (MSG_PREVALIDATE +:+ e)) = Some PrevalidateFailed /\
  gate_failure_kind (Other (MSG_PREPARE +:+ e)) = Some PrepareFailed /\
  gate_failure_kind (Other (MSG_TIME +:+ e)) = Some TooSlow.
Proof.
  unfold gate_failure_kind. rewrite !starts_with_app.
  repeat split; reflexivity.
Qed.

(** Every error of the gate comes from one named stage or from the time
    limit, with its own message. *)
Lemma host_perf_check_error_cases (w : World) err w' :
  hpc w = (Err err, w') ->
  (exists c e, decompress WASM_CODE CODE_SIZE_LIMIT = (c, Err e) /\
     err = Other (MSG_DECOMPRESS +:+ e) /\
     gate_failure_kind err = Some DecompressFailed) \/
  (exists c1 code c e, decompress WASM_CODE CODE_SIZE_LIMIT = (c1, Ok code) /\
     prevalidate code = (c, Err e) /\
     err = Other (MSG_PREVALIDATE +:+ e) /\
     gate_failure_kind err = Some PrevalidateFailed) \/
  (exists c1 code c2 blob c e, decompress WASM_CODE CODE_SIZE_LIMIT = (c1, Ok code) /\
     prevalidate code = (c2, Ok blob) /\ prepare blob = (c, Err e) /\
     err = Other (MSG_PREPARE +:+ e) /\
     gate_failure_kind err = Some PrepareFailed) \/
  (exists c1 code c2 blob c3 art, decompress WASM_CODE CODE_SIZE_LIMIT = (c1, Ok code) /\
     prevalidate code = (c2, Ok blob) /\ prepare blob = (c3, Ok art) /\
     20000000000 < c1 + c2 + c3 /\
     err = Other (time_limit_message (Duration_from_nanos (c1 + c2 + c3))) /\
     gate_failure_kind err = Some TooSlow).
Proof.
  intros H. unfold_m.
  destruct (bool_decide _) eqn:Ex; [discriminate H|].
  destruct (decompress WASM_CODE CODE_SIZE_LIMIT) as [c1 [code|e1]] eqn:Ed; simpl in H.
  2:{ injection H as <- _. left. exists c1, e1. repeat split; auto;
      try apply starts_with_other_stage. }
  destruct (prevalidate code) as [c2 [blob|e2]] eqn:Ev; simpl in H.
  2:{ injection H as <- _. right; left. exists c1, code, c2, e2. repeat split; auto;
      try apply starts_with_other_stage. }
  destruct (prepare blob) as [c3 [art|e3]] eqn:Ep; simpl in H.
  2:{ injection H as <- _. right; right; left.
      exists c1, code, c2, blob, c3, e3. repeat split; auto;
      try apply starts_with_other_stage. }
  rewrite clock_elapsed, duration_le_limit in H.
  destruct (c1 + c2 + c3 <=? 20000000000) eqn:Et; simpl in H.
  - destruct (bool_decide (is_Some _)); simpl in H;
      [|destruct (bool_decide (_ ∈ _))]; discriminate H.
  - injection H as <- _. right; right; right.
    exists c1, code, c2, blob, c3, art. apply N.leb_gt in Et.
    repeat split; auto; try apply starts_with_other_stage.
Qed.

(** With no sentinel, the first failing stage, or the time limit, decides
    the gate's error and its trace: no later stage runs and the sentinel is
    not opened. *)
Lemma host_perf_check_failures (w : World) :
  w_fs w !! sentinel w = None ->
  (forall c e, decompress WASM_CODE CODE_SIZE_LIMIT = (c, Err e) ->
     fst (hpc w) = Err (Other (MSG_DECOMPRESS +:+ e)) /\
     w_trace (snd (hpc w)) =
       w_trace w ++ [EvLog "Running the performance check..."; EvDecompress]) /\
  (forall c1 code c e, decompress WASM_CODE CODE_SIZE_LIMIT = (c1, Ok code) ->
     prevalidate code = (c, Err e) ->
     fst (hpc w) = Err (Other (MSG_PREVALIDATE +:+ e)) /\
     w_trace (snd (hpc w)) =
       w_trace w ++ [EvLog "Running the performance check..."; EvDecompress;
                     EvPrevalidate]) /\
  (forall c1 code c2 blob c e, decompress WASM_CODE CODE_SIZE_LIMIT = (c1, Ok code) ->
     prevalidate code = (c2, Ok blob) -> prepare blob = (c, Err e) ->
     fst (hpc w) = Err (Other (MSG_PREPARE +:+ e)) /\
     w_trace (snd (hpc w)) =
       w_trace w ++ [EvLog "Running the performance check..."; EvDecompress;
                     EvPrevalidate; EvPrepare]) /\
  (forall c1 code c2 blob c3 art, decompress WASM_CODE CODE_SIZE_LIMIT = (c1, Ok code) ->
     prevalidate code = (c2, Ok blob) -> prepare blob = (c3, Ok art) ->
     20000000000 < c1 + c2 + c3 ->
     fst (hpc w) = Err (Other (time_limit_message (Duration_from_nanos (c1 + c2 + c3)))) /\
     w_trace (snd (hpc w)) =
       w_trace w ++ [EvLog "Running the performance check..."; EvDecompress;
                     EvPrevalidate; EvPrepare]).
Proof.
  intros Hs. unfold sentinel in Hs. unfold_m.
  rewrite bool_decide_eq_false_2 by (rewrite Hs; apply is_Some_None).
  split; [|split; [|split]].
  - intros c e Ed. rewrite Ed. simpl.
    split; [reflexivity|rewrite <- !app_assoc; reflexivity].
  - intros c1 code c e Ed Ev. rewrite Ed. simpl. rewrite Ev. simpl.
    split; [reflexivity|rewrite <- !app_assoc; reflexivity].
  - intros c1 code c2 blob c e Ed Ev Ep. rewrite Ed. simpl. rewrite Ev. simpl.
    rewrite Ep. simpl. split; [reflexivity|rewrite <- !app_assoc; reflexivity].
  - intros c1 code c2 blob c3 art Ed Ev Ep Ht. rewrite Ed. simpl. rewrite Ev. simpl.
    rewrite Ep. simpl. rewrite clock_elapsed, duration_le_limit.
    replace (c1 + c2 + c3 <=? 20000000000) with false
      by (symmetry; apply N.leb_gt; lia).
    simpl. split; [reflexivity|rewrite <- !app_assoc; reflexivity].
Qed.

(** C6: when the sentinel is absent, a failing stage makes the gate abort
    with that stage's message, and running over the time limit with the
    timing message; conversely every error of the gate is either the
    failure of one named stage or the timing failure, and the four kinds
    of failure are told apart by their messages. *)
Theorem host_perf_check_error_kinds (w : World) :
  (w_fs w !! sentinel w = None ->
   (forall c e, decompress WASM_CODE CODE_SIZE_LIMIT = (c, Err e) ->
      fst (hpc w) = Err (Other (MSG_DECOMPRESS +:+ e)) /\
      gate_failure_kind (Other (MSG_DECOMPRESS +:+ e)) = Some DecompressFailed) /\
   (forall c1 code c e, decompress WASM_CODE CODE_SIZE_LIMIT = (c1, Ok code) ->
      prevalidate code = (c, Err e) ->
      fst (hpc w) = Err (Other (MSG_PREVALIDATE +:+ e)) /\
      gate_failure_kind (Other (MSG_PREVALIDATE +:+ e)) = Some PrevalidateFailed) /\
   (forall c1 code c2 blob c e, decompress WASM_CODE CODE_SIZE_LIMIT = (c1, Ok code) ->
      prevalidate code = (c2, Ok blob) -> prepare blob = (c, Err e) ->
      fst (hpc w) = Err (Other (MSG_PREPARE +:+ e)) /\
      gate_failure_kind (Other (MSG_PREPARE +:+ e)) = Some PrepareFailed) /\
   (forall c1 code c2 blob c3 art, decompress WASM_CODE CODE_SIZE_LIMIT = (c1, Ok code) ->
      prevalidate code = (c2, Ok blob) -> prepare blob = (c3, Ok art) ->
      20000000000 < c1 + c2 + c3 ->
      fst (hpc w) = Err (Other (time_limit_message (Duration_from_nanos (c1 + c2 + c3)))) /\
      gate_failure_kind (Other (time_limit_message (Duration_from_nanos (c1 + c2 + c3))))
        = Some TooSlow)) /\
  (forall err w', hpc w = (Err err, w') ->
  (exists c e, decompress WASM_CODE CODE_SIZE_LIMIT = (c, Err e) /\
     err = Other (MSG_DECOMPRESS +:+ e) /\
     gate_failure_kind err = Some DecompressFailed) \/
  (exists c1 code c e, decompress WASM_CODE CODE_SIZE_LIMIT = (c1, Ok code) /\
     prevalidate code = (c, Err e) /\
     err = Other (MSG_PREVALIDATE +:+ e) /\
     gate_failure_kind err = Some PrevalidateFailed) \/
  (exists c1 code c2 blob c e, decompress WASM_CODE CODE_SIZE_LIMIT = (c1, Ok code) /\
     prevalidate code = (c2, Ok blob) /\ prepare blob = (c, Err e) /\
     err = Other (MSG_PREPARE +:+ e) /\
     gate_failure_kind err = Some PrepareFailed) \/
  (exists c1 code c2 blob c3 art, decompress WASM_CODE CODE_SIZE_LIMIT = (c1, Ok code) /\
     prevalidate code = (c2, Ok blob) /\ prepare blob = (c3, Ok art) /\
     20000000000 < c1 + c2 + c3 /\
     err = Other (time_limit_message (Duration_from_nanos (c1 + c2 + c3))) /\
     gate_failure_kind err = Some TooSlow)).
Proof.
  split; [|exact (host_perf_check_error_cases w)].
  intros Hs. destruct (host_perf_check_failures w Hs) as (H1 & H2 & H3 & H4).
  split; [|split; [|split]].
  - intros c e Ed. split; [exact (proj1 (H1 c e Ed))|exact (proj1 (starts_with_other_stage e))].
  - intros c1 code c e Ed Ev.
    split; [exact (proj1 (H2 c1 code c e Ed Ev))|exact (proj1 (proj2 (starts_with_other_stage e)))].
  - intros c1 code c2 blob c e Ed Ev Ep.
    split; [exact (proj1 (H3 c1 code c2 blob c e Ed Ev Ep))|
      exact (proj1 (proj2 (proj2 (starts_with_other_stage e))))].
  - intros c1 code c2 blob c3 art Ed Ev Ep Ht.
    split; [exact (proj1 (H4 c1 code c2 blob c3 art Ed Ev Ep Ht))|].
    unfold time_limit_message. exact (proj2 (proj2 (proj2 (starts_with_other_stage _)))).
Qed.

(** C7 (as the code does it): when the sentinel cannot be created the gate
    still returns [Ok]; the failure is discarded without any log line, the
    attempt to open the file being its last effect.  The success line logs
    a second reading of the clock, taken [log_gap] after the compared one. *)
Theorem host_perf_check_touch_failure_ignored (w : World) c1 code c2 blob c3 art :
  w_fs w !! sentinel w = None ->
  removelast (sentinel w) ∈ w_readonly w ->
  decompress WASM_CODE CODE_SIZE_LIMIT = (c1, Ok code) ->
  prevalidate code = (c2, Ok blob) ->
  prepare blob = (c3, Ok art) ->
  c1 + c2 + c3 <= 20000000000 ->
  fst (hpc w) = Ok tt /\
  w_fs (snd (hpc w)) = w_fs w /\
  w_trace (snd (hpc w)) =
    w_trace w ++ [EvLog "Running the performance check..."; EvDecompress;
                  EvPrevalidate; EvPrepare;
                  EvLog ("Performance check passed, elapsed: " +:+
                         duration_debug (Duration_from_nanos (c1 + c2 + c3 + log_gap)));
                  EvOpen (sentinel w)].
Proof.
  intros Hs Hro Ed Ev Ep Hle. unfold sentinel in *. unfold_m.
  rewrite bool_decide_eq_false_2 by (rewrite Hs; apply is_Some_None).
  rewrite Ed; simpl; rewrite Ev; simpl; rewrite Ep; simpl.
  rewrite clock_elapsed, duration_le_limit.
  replace (c1 + c2 + c3 <=? 20000000000) with true
    by (symmetry; apply N.leb_le; lia).
  simpl. rewrite clock_elapsed_later.
  rewrite bool_decide_eq_false_2 by (rewrite Hs; apply is_Some_None).
  rewrite bool_decide_eq_true_2 by exact Hro. simpl.
  repeat split. rewrite <- !app_assoc. reflexivity.
Qed.

(** C9 (as the code does it): with the absolute path of the executable the
    sentinel is [.perf_check_passed] in the executable's directory whatever
    the current directory; when [current_exe] fails it falls back to
    [.perf_check_passed] in the current directory.  Only the presence of
    the file matters (worlds whose file systems have the same files give
    the same result and effects), and a sentinel the gate creates is
    empty. *)
Theorem host_perf_check_sentinel_contract (w : World) :
  (forall p, w_exe w = Some p -> p_abs p = true ->
     forall cwd, sentinel (set_cwd w cwd) =
                 removelast (p_comps p) ++ [CHECK_PASSED_FILE_NAME]) /\
  (w_exe w = None -> sentinel w = w_cwd w ++ [CHECK_PASSED_FILE_NAME]) /\
  (forall fs2, (forall k, is_Some (w_fs w !! k) <-> is_Some (fs2 !! k)) ->
     fst (hpc w) = fst (hpc (set_fs w fs2)) /\
     w_trace (snd (hpc w)) = w_trace (snd (hpc (set_fs w fs2)))) /\
  (w_fs w !! sentinel w = None ->
     w_fs (snd (hpc w)) !! sentinel w = None \/
     w_fs (snd (hpc w)) !! sentinel w = Some []).
Proof.
  split; [|split; [|split]].
  - intros p He Ha cwd. unfold sentinel, set_cwd, check_passed_path_of,
      resolve; simpl. rewrite He. simpl. rewrite Ha. reflexivity.
  - intros He. unfold sentinel, check_passed_path_of, resolve.
    rewrite He. reflexivity.
  - intros fs2 Hd.
    assert (Hb : forall k, bool_decide (is_Some (fs2 !! k)) =
                           bool_decide (is_Some (w_fs w !! k))).
    { intros k. apply bool_decide_ext. symmetry. apply Hd. }
    unfold set_fs. unfold_m. rewrite !Hb.
    destruct (bool_decide _); [split; reflexivity|].
    destruct (decompress WASM_CODE CODE_SIZE_LIMIT) as [c1 [code|e1]];
      simpl; [|split; reflexivity].
    destruct (prevalidate code) as [c2 [blob|e2]]; simpl; [|split; reflexivity].
    destruct (prepare blob) as [c3 [art|e3]]; simpl; [|split; reflexivity].
    destruct (duration_le _ _); simpl; [|split; reflexivity].
    rewrite !Hb.
    destruct (bool_decide (is_Some _)); simpl; [split; reflexivity|].
    destruct (bool_decide (_ ∈ _)); simpl; split; reflexivity.
  - intros Hs. unfold sentinel in *. unfold_m.
    set (sp := resolve (w_cwd w) (check_passed_path_of (w_exe w))) in *.
    rewrite bool_decide_eq_false_2 by (rewrite Hs; apply is_Some_None).
    destruct (decompress WASM_CODE CODE_SIZE_LIMIT) as [c1 [code|e1]];
      simpl; [|auto].
    destruct (prevalidate code) as [c2 [blob|e2]]; simpl; [|auto].
    destruct (prepare blob) as [c3 [art|e3]]; simpl; [|auto].
    destruct (duration_le _ _); simpl; [|auto].
    fold sp. rewrite bool_decide_eq_false_2 by (rewrite Hs; apply is_Some_None).
    destruct (bool_decide (_ ∈ _)); simpl; [auto|].
    right. apply lookup_insert_eq.
Qed.

(** C10: once the pipeline has succeeded, the gate passes exactly when the
    elapsed time is at most 20 seconds; at exactly 20 seconds it passes and
    attempts to create the sentinel. *)
Theorem host_perf_check_limit_inclusive (w : World) c1 code c2 blob c3 art :
  w_fs w !! sentinel w = None ->
  decompress WASM_CODE CODE_SIZE_LIMIT = (c1, Ok code) ->
  prevalidate code = (c2, Ok blob) ->
  prepare blob = (c3, Ok art) ->
  (fst (hpc w) = Ok tt <-> c1 + c2 + c3 <= 20000000000) /\
  (c1 + c2 + c3 = 20000000000 ->
     fst (hpc w) = Ok tt /\ last (w_trace (snd (hpc w))) = Some (EvOpen (sentinel w))).
Proof.
  intros Hs Ed Ev Ep. unfold sentinel in *. unfold_m.
  rewrite bool_decide_eq_false_2 by (rewrite Hs; apply is_Some_None).
  rewrite Ed; simpl; rewrite Ev; simpl; rewrite Ep; simpl.
  rewrite clock_elapsed, duration_le_limit.
  destruct (c1 + c2 + c3 <=? 20000000000) eqn:Et; simpl.
  - apply N.leb_le in Et.
    rewrite bool_decide_eq_false_2 by (rewrite Hs; apply is_Some_None).
    destruct (bool_decide (_ ∈ _)); simpl;
      (split; [split; auto|intros _; split; [reflexivity|apply last_snoc]]).
  - apply N.leb_gt in Et. split; [split; [discriminate|lia]|lia].
Qed.

(** Everything the gate does to the trace is logging, the pipeline and the
    sentinel file. *)
Lemma host_perf_check_trace_gate (w : World) :
  exists suffix, w_trace (snd (hpc w)) = w_trace w ++ suffix /\
                 Forall (fun ev => gate_event ev = true) suffix.
Proof.
  unfold_m.
  destruct (bool_decide _).
  { eexists; split; [reflexivity|repeat constructor]. }
  destruct (decompress WASM_CODE CODE_SIZE_LIMIT) as [c1 [code|e1]]; simpl.
  2:{ eexists; split; [rewrite <- !app_assoc; reflexivity|repeat constructor]. }
  destruct (prevalidate code) as [c2 [blob|e2]]; simpl.
  2:{ eexists; split; [rewrite <- !app_assoc; reflexivity|repeat constructor]. }
  destruct (prepare blob) as [c3 [art|e3]]; simpl.
  2:{ eexists; split; [rewrite <- !app_assoc; reflexivity|repeat constructor]. }
  destruct (duration_le _ _); simpl.
  2:{ eexists; split; [rewrite <- !app_assoc; reflexivity|repeat constructor]. }
  destruct (bool_decide (is_Some _)); simpl;
    [|destruct (bool_decide (_ ∈ _)); simpl];
    (eexists; split; [rewrite <- !app_assoc; reflexivity|repeat constructor]).
Qed.

Abbreviation run_ := (run RuntimeBlob Artifact decompress prevalidate prepare WASM_CODE log_gap node).

(** Node start-up only creates the runner, logs the Kusama banner and
    builds the service. *)
Lemma run_node_inner_startup_events (cli : Cli) (w : World) :
  exists suffix, w_trace (snd (run_node_inner node cli w)) = w_trace w ++ suffix /\
                 Forall (fun ev => startup_event ev = true) suffix.
Proof.
  unfold run_node_inner, external, lift_outcome, bind, ret, throw.
  destruct (create_runner_result (node cli)); simpl;
    [|eexists; split; [reflexivity|repeat constructor]].
  destruct (grandpa_pause_of (grandpa_pause (node cli))); simpl;
    [|eexists; split; [reflexivity|repeat constructor]].
  destruct (chain_is_kusama cli), (role_is_light cli);
    unfold info_all, info, emit, bind, ret, throw; simpl;
    (eexists; split; [rewrite <- ?app_assoc; reflexivity|repeat constructor]).
Qed.

(** C4 (as the code does it): the gate is not on the node start-up path.
    Under no subcommand other than [host-perf-check] does [run] run the
    gate: its events are only those of the runner, the Kusama banner, the
    node service, the logger, the workers and the other subcommands (no
    pipeline stage, no opening of the sentinel, no log line of the gate).
    Without a subcommand, once the runner is created (with a well-formed
    GRANDPA pause) a full node's service is built and started, its outcome
    being [run]'s.  The [host-perf-check] subcommand runs only the gate and
    never creates a runner nor builds the node service. *)
Theorem run_gate_not_on_startup_path (target_android : bool) (cli : Cli) (w : World) :
  (subcommand cli <> Some HostPerfCheck ->
   exists suffix, w_trace (snd (run_ target_android cli w)) = w_trace w ++ suffix /\
     Forall (fun ev => startup_event ev = true) suffix) /\
  (subcommand cli = None -> create_runner_result (node cli) = Ok tt ->
   length (grandpa_pause (node cli)) <> 1%nat -> role_is_light cli = false ->
   run_ target_android cli w =
     (run_node_result (node cli),
      mkWorld (w_exe w) (w_cwd w)
        (run_node_fs (node cli) (create_runner_fs (node cli) (w_fs w)))
        (w_readonly w) (w_clock w)
        (w_trace w ++ [EvCreateRunner] ++
         (if chain_is_kusama cli then map EvLog kusama_banner else []) ++
         [EvBuildFull]))) /\
  (subcommand cli = Some HostPerfCheck ->
   exists suffix, w_trace (snd (run_ target_android cli w)) = w_trace w ++ suffix /\
     Forall (fun ev => gate_event ev = true) suffix).
Proof.
  split; [|split].
  - intros Hs. unfold run.
    destruct (subcommand cli) as [sc|]; [|apply run_node_inner_startup_events].
    destruct sc; try (exfalso; apply Hs; reflexivity);
      unfold trace_event, logger_init, bind, throw, emit; simpl;
      try destruct target_android; simpl;
      (eexists; split; [rewrite <- ?app_assoc; reflexivity|repeat constructor]).
  - intros Hs Hr Hg Hl. unfold run. rewrite Hs.
    unfold run_node_inner, external, lift_outcome, bind, ret.
    rewrite Hr. simpl.
    destruct (grandpa_pause (node cli)) as [|a [|b rest]]; simpl in Hg;
      [| lia |]; simpl; rewrite Hl;
      destruct (chain_is_kusama cli); unfold info_all, info, emit, bind, ret; simpl;
      rewrite <- ?app_assoc; reflexivity.
  - intros Hs. unfold run. rewrite Hs. unfold bind, logger_init. simpl.
    destruct (host_perf_check_trace_gate (emit (EvLoggerInit true) w))
      as [suffix [Ht Hf]].
    destruct (hpc (emit (EvLoggerInit true) w)) as [[]] eqn:E; simpl in *;
      exists (EvLoggerInit true :: suffix); rewrite Ht; simpl;
      (split; [rewrite <- app_assoc; reflexivity|constructor; auto]).
Qed.

(** C5: on Android both worker subcommands fail at once with the
    "not supported under this platform" error; only the logger has been set
    up, the worker entry point is never called. *)
Theorem pvf_workers_refused_on_android socket_path light kusama (w : World) :
  run_ true (mkCli (Some (PvfPrepareWorker socket_path)) light kusama) w =
    (Err (SubstrateCli (Input PREPARE_UNSUPPORTED)), emit (EvLoggerInit false) w) /\
  run_ true (mkCli (Some (PvfExecuteWorker socket_path)) light kusama) w =
    (Err (SubstrateCli (Input EXECUTE_UNSUPPORTED)), emit (EvLoggerInit false) w).
Proof. split; reflexivity. Qed.

(** C8 (as the code does it): the refusal names the refused mode,
    preparation or execution, and refers to the platform only as "this
    platform". *)
Theorem pvf_worker_refusal_messages socket_path light kusama (w : World) :
  fst (run_ true (mkCli (Some (PvfPrepareWorker socket_path)) light kusama) w) =
    Err (SubstrateCli (Input
      "PVF preparation workers are not supported under this platform")) /\
  fst (run_ true (mkCli (Some (PvfExecuteWorker socket_path)) light kusama) w) =
    Err (SubstrateCli (Input
      "PVF execution workers are not supported under this platform")).
Proof. split; reflexivity. Qed.

End Proofs.

Lemma host_perf_check_skips_when_passed_witness :
  let w := demo_world (Some demo_exe) ["home"]
             {[ ["usr"; "bin"; ".perf_check_passed"] := [] ]} [] in
  is_Some (w_fs w !! sentinel w) /\
  demo_hpc 0 0 0 true w
  = (Ok tt, emit (EvLog "Performance check skipped: already passed") w).
Proof.
  intros w. split.
  - vm_compute. eexists; reflexivity.
  - apply host_perf_check_skips_when_passed. vm_compute. eexists; reflexivity.
Defined.

(** ** Witnesses and counterexamples at concrete inputs *)

Lemma host_perf_check_sentinel_only_on_success_witness :
  let w := demo_world (Some demo_exe) ["home"] ∅ [] in
  let R := demo_hpc 0 0 0 false w in
  let S := demo_hpc 25000000000 0 0 true w in
  R = (fst R, snd R) /\ S = (fst S, snd S) /\ w_fs w !! sentinel w = None /\
  demo_decompress 0 false [] CODE_SIZE_LIMIT = (0, Err "corrupt stream") /\
  (exists err, fst R = Err err) /\ w_fs (snd R) = w_fs w /\
  (exists err, fst S = Err err) /\ w_fs (snd S) = w_fs w.
Proof.
  intros w R S.
  assert (HR : R = (fst R, snd R)) by apply surjective_pairing.
  assert (HS : S = (fst S, snd S)) by apply surjective_pairing.
  assert (Hs : w_fs w !! sentinel w = None) by (vm_compute; reflexivity).
  assert (Hd : demo_decompress 0 false [] CODE_SIZE_LIMIT = (0, Err "corrupt stream"))
    by reflexivity.
  destruct (host_perf_check_sentinel_only_on_success unit unit
           (demo_decompress 0 false) (demo_prevalidate 0) (demo_prepare 0) [] demo_log_gap
           w (fst R) (snd R) HR) as (HeR & _ & HfR).
  destruct (proj1 (HfR Hs) 0 "corrupt stream" Hd) as [errR HerrR].
  destruct (host_perf_check_sentinel_only_on_success unit unit
           (demo_decompress 25000000000 true) (demo_prevalidate 0) (demo_prepare 0) []
           demo_log_gap w (fst S) (snd S) HS) as (HeS & _ & HfS).
  destruct (proj2 (proj2 (proj2 (HfS Hs))) 25000000000 [] 0 tt 0 tt
              eq_refl eq_refl eq_refl ltac:(lia)) as [errS HerrS].
  split; [exact HR|split; [exact HS|split; [exact Hs|split; [exact Hd|]]]].
  split; [exists errR; exact HerrR|split; [exact (HeR errR HerrR)|]].
  split; [exists errS; exact HerrS|exact (HeS errS HerrS)].
Defined.

Example too_slow_message_25s :
  time_limit_message (Duration_from_nanos 25000000000) =
  "Performance check not passed: exceeded the 20s time limit, elapsed: 25s".
Proof. vm_compute. reflexivity. Qed.

Lemma host_perf_check_too_slow_message_witness :
  let w := demo_world (Some demo_exe) ["home"] ∅ [] in
  w_fs w !! sentinel w = None /\
  demo_decompress 25000000000 true [] CODE_SIZE_LIMIT = (25000000000, Ok []) /\
  20000000000 < 25000000000 + 0 + 0 /\
  fst (demo_hpc 25000000000 0 0 true w) =
    Err (Other "Performance check not passed: exceeded the 20s time limit, elapsed: 25s").
Proof.
  intros w. split; [vm_compute; reflexivity|]. split; [reflexivity|].
  split; [lia|].
  destruct (host_perf_check_too_slow_message unit unit
              (demo_decompress 25000000000 true) (demo_prevalidate 0) (demo_prepare 0) [] demo_log_gap
              w 25000000000 [] 0 tt 0 tt) as [H _].
  - vm_compute. reflexivity.
  - reflexivity.
  - reflexivity.
  - reflexivity.
  - lia.
  - unfold demo_hpc. rewrite H. vm_compute. reflexivity.
Defined.

Lemma host_perf_check_error_kinds_witness :
  let w := demo_world (Some demo_exe) ["home"] ∅ [] in
  let R := demo_hpc 0 0 0 false w in
  w_fs w !! sentinel w = None /\
  demo_decompress 0 false [] CODE_SIZE_LIMIT = (0, Err "corrupt stream") /\
  fst R = Err (Other (MSG_DECOMPRESS +:+ "corrupt stream")) /\
  R = (Err (Other (MSG_DECOMPRESS +:+ "corrupt stream")), snd R) /\
  gate_failure_kind (Other (MSG_DECOMPRESS +:+ "corrupt stream")) = Some DecompressFailed.
Proof.
  intros w R.
  assert (Hs : w_fs w !! sentinel w = None) by (vm_compute; reflexivity).
  assert (Hd : demo_decompress 0 false [] CODE_SIZE_LIMIT = (0, Err "corrupt stream"))
    by reflexivity.
  pose proof (host_perf_check_error_kinds unit unit
              (demo_decompress 0 false) (demo_prevalidate 0) (demo_prepare 0) [] demo_log_gap
              w) as [Hfw Hbw].
  destruct (proj1 (Hfw Hs) 0 "corrupt stream" Hd) as [Hr _].
  assert (HR : R = (Err (Other (MSG_DECOMPRESS +:+ "corrupt stream")), snd R))
    by (rewrite <- Hr; apply surjective_pairing).
  split; [exact Hs|split; [exact Hd|split; [exact Hr|split; [exact HR|]]]].
  destruct (Hbw _ _ HR)
    as [(c & e & _ & _ & Hk) | [(c1 & code & c & e & Hd' & _)
       | [(c1 & code & c2 & blob & c & e & Hd' & _)
       | (c1 & code & c2 & blob & c3 & art & Hd' & _)]]];
    [exact Hk | discriminate Hd' ..].
Defined.

(** C7 as stated fails: the creation of the sentinel fails in a read-only
    directory and nothing is logged about it; the attempt is the last
    effect of the run and the only log lines are the two of a passing
    check. *)
Lemma host_perf_check_touch_failure_not_logged :
  let w := demo_world (Some demo_exe) ["home"] ∅ [["usr"; "bin"]] in
  fst (demo_hpc 5000000000 0 0 true w) = Ok tt /\
  w_fs (snd (demo_hpc 5000000000 0 0 true w)) !! demo_sentinel = None /\
  w_trace (snd (demo_hpc 5000000000 0 0 true w)) =
    [EvLog "Running the performance check..."; EvDecompress; EvPrevalidate;
     EvPrepare; EvLog "Performance check passed, elapsed: 5.001s";
     EvOpen demo_sentinel].
Proof. vm_compute. repeat split. Qed.

Lemma host_perf_check_touch_failure_ignored_witness :
  let w := demo_world (Some demo_exe) ["home"] ∅ [["usr"; "bin"]] in
  w_fs w !! sentinel w = None /\
  removelast (sentinel w) ∈ w_readonly w /\
  fst (demo_hpc 5000000000 0 0 true w) = Ok tt /\
  w_fs (snd (demo_hpc 5000000000 0 0 true w)) = w_fs w.
Proof.
  intros w.
  assert (Hs : w_fs w !! sentinel w = None) by (vm_compute; reflexivity).
  assert (Hro : removelast (sentinel w) ∈ w_readonly w)
    by (vm_compute; left).
  destruct (host_perf_check_touch_failure_ignored unit unit
              (demo_decompress 5000000000 true) (demo_prevalidate 0) (demo_prepare 0) [] demo_log_gap
              w 5000000000 [] 0 tt 0 tt Hs Hro eq_refl eq_refl eq_refl
              ltac:(lia)) as (H1 & H2 & _).
  repeat split; assumption.
Defined.

(** C9 as stated fails: when [current_exe] fails, the sentinel is looked up
    and created relative to the current directory, so two runs that differ
    only in their current directory use two different files. *)
Lemma sentinel_depends_on_cwd :
  let wa := demo_world None ["a"] ∅ [] in
  let wb := demo_world None ["b"] ∅ [] in
  sentinel wa = ["a"; ".perf_check_passed"] /\
  sentinel wb = ["b"; ".perf_check_passed"] /\
  w_fs (snd (demo_hpc 0 0 0 true wa)) !! ["a"; ".perf_check_passed"] = Some [] /\
  w_fs (snd (demo_hpc 0 0 0 true wb)) !! ["a"; ".perf_check_passed"] = None /\
  w_fs (snd (demo_hpc 0 0 0 true wb)) !! ["b"; ".perf_check_passed"] = Some [].
Proof. vm_compute. repeat split. Qed.

Lemma host_perf_check_sentinel_contract_witness :
  let w := demo_world (Some demo_exe) ["home"] ∅ [] in
  let w_noexe := demo_world None ["home"] ∅ [] in
  let fs1 : gmap (list string) (list Byte.byte) := {[ ["etc"; "motd"] := [] ]} in
  let fs2 : gmap (list string) (list Byte.byte) := {[ ["etc"; "motd"] := [Byte.x78] ]} in
  sentinel (set_cwd w ["tmp"]) = demo_sentinel /\
  sentinel w_noexe = ["home"; ".perf_check_passed"] /\
  fst (demo_hpc 0 0 0 true (set_fs w fs1)) = fst (demo_hpc 0 0 0 true (set_fs w fs2)) /\
  (w_fs (snd (demo_hpc 0 0 0 true w)) !! sentinel w = None \/
   w_fs (snd (demo_hpc 0 0 0 true w)) !! sentinel w = Some []).
Proof.
  intros w w_noexe fs1 fs2.
  destruct (host_perf_check_sentinel_contract unit unit
              (demo_decompress 0 true) (demo_prevalidate 0) (demo_prepare 0) [] demo_log_gap w)
    as (Ha & _ & _ & Hd).
  destruct (host_perf_check_sentinel_contract unit unit
              (demo_decompress 0 true) (demo_prevalidate 0) (demo_prepare 0) [] demo_log_gap w_noexe)
    as (_ & Hb & _ & _).
  destruct (host_perf_check_sentinel_contract unit unit
              (demo_decompress 0 true) (demo_prevalidate 0) (demo_prepare 0) [] demo_log_gap
              (set_fs w fs1))
    as (_ & _ & Hc & _).
  split; [exact (Ha demo_exe eq_refl eq_refl ["tmp"])|].
  split; [exact (Hb eq_refl)|].
  split.
  - destruct (Hc fs2) as [H _].
    + intros k. unfold set_fs, fs1, fs2; simpl.
      rewrite !lookup_singleton. case_decide; simpl; split; intros; eauto.
    + exact H.
  - apply Hd. vm_compute. reflexivity.
Defined.

Lemma host_perf_check_limit_inclusive_witness :
  let w := demo_world (Some demo_exe) ["home"] ∅ [] in
  w_fs w !! sentinel w = None /\
  fst (demo_hpc 20000000000 0 0 true w) = Ok tt /\
  last (w_trace (snd (demo_hpc 20000000000 0 0 true w))) = Some (EvOpen demo_sentinel).
Proof.
  intros w.
  assert (Hs : w_fs w !! sentinel w = None) by (vm_compute; reflexivity).
  destruct (host_perf_check_limit_inclusive unit unit
              (demo_decompress 20000000000 true) (demo_prevalidate 0) (demo_prepare 0) [] demo_log_gap
              w 20000000000 [] 0 tt 0 tt Hs eq_refl eq_refl eq_refl)
    as [_ H].
  destruct (H ltac:(lia)) as [H1 H2].
  split; [exact Hs|]. split; [exact H1|]. exact H2.
Defined.

(** C4 as stated fails: starting the node (no subcommand) with no sentinel
    present runs no stage of the gate and creates no sentinel, and builds
    the node service all the same. *)
Lemma node_starts_without_gate :
  let w := demo_world (Some demo_exe) ["home"] ∅ [] in
  fst (demo_run false (mkCli None false false) w) = Ok tt /\
  w_trace (snd (demo_run false (mkCli None false false) w)) =
    [EvCreateRunner; EvBuildFull] /\
  w_fs (snd (demo_run false (mkCli None false false) w)) !! demo_sentinel = None.
Proof. vm_compute. repeat split. Qed.

Lemma run_gate_not_on_startup_path_witness :
  subcommand (mkCli None false true) = None /\
  create_runner_result (demo_node (mkCli None false true)) = Ok tt /\
  length (grandpa_pause (demo_node (mkCli None false true))) <> 1%nat /\
  role_is_light (mkCli None false true) = false /\
  demo_run false (mkCli None false true) demo_gate_world =
    (Ok tt,
     mkWorld (w_exe demo_gate_world) (w_cwd demo_gate_world) (w_fs demo_gate_world)
       (w_readonly demo_gate_world) (w_clock demo_gate_world)
       (w_trace demo_gate_world ++ [EvCreateRunner] ++ map EvLog kusama_banner ++
        [EvBuildFull])).
Proof.
  split; [reflexivity|split; [reflexivity|split; [simpl; lia|split; [reflexivity|]]]].
  exact (proj1 (proj2 (run_gate_not_on_startup_path unit unit (demo_decompress 0 true)
    (demo_prevalidate 0) (demo_prepare 0) [] demo_log_gap demo_node false
    (mkCli None false true) demo_gate_world)) eq_refl eq_refl ltac:(simpl; lia) eq_refl).
Defined.

(** C8 as stated fails: neither refusal message names the platform. *)
Lemma worker_refusal_does_not_name_platform :
  let w := demo_world (Some demo_exe) ["home"] ∅ [] in
  match fst (demo_run true (mkCli (Some (PvfPrepareWorker "/tmp/pvf-prepare")) false false) w),
        fst (demo_run true (mkCli (Some (PvfExecuteWorker "/tmp/pvf-execute")) false false) w)
  with
  | Err (SubstrateCli (Input m1)), Err (SubstrateCli (Input m2)) =>
      String.index 0 "ndroid" m1 = None /\ String.index 0 "ndroid" m2 = None
  | _, _ => False
  end.
Proof. vm_compute. split; reflexivity. Qed.

(** ** Chain spec selection, runtime selection and the gate's pipeline *)

Lemma starts_with_inv (p s : string) :
  starts_with p s = true -> exists r, s = p +:+ r.
Proof.
  revert s. induction p as [|a p IH]; intros s H.
  - exists s. reflexivity.
  - destruct s as [|b s]; [discriminate H|].
    simpl in H. apply andb_prop in H as [Hab Hps].
    apply Ascii.eqb_eq in Hab. subst b.
    destruct (IH s Hps) as [r ->]. exists r. reflexivity.
Qed.

Lemma starts_with_both (a b s : string) :
  starts_with a s = true -> starts_with b s = true ->
  starts_with a b = true \/ starts_with b a = true.
Proof.
  revert b s. induction a as [|x a IH]; intros b s Ha Hb; [left; reflexivity|].
  destruct b as [|y b]; [right; reflexivity|].
  destruct s as [|z s]; [discriminate Ha|].
  simpl in Ha, Hb. apply andb_prop in Ha as [Hx Ha]. apply andb_prop in Hb as [Hy Hb].
  apply Ascii.eqb_eq in Hx, Hy. subst x y. simpl. rewrite Ascii.eqb_refl. simpl.
  exact (IH b s Ha Hb).
Qed.

Lemma default_chain_cases (n : string) :
  default_chain n = "polkadot" \/ default_chain n = "kusama" \/
  default_chain n = "westend" \/ default_chain n = "rococo".
Proof.
  unfold default_chain, KNOWN_CHAINS. cbn -[starts_with].
  destruct (starts_with "polkadot" n); [left; reflexivity|].
  destruct (starts_with "kusama" n); [right; left; reflexivity|].
  destruct (starts_with "westend" n); [right; right; left; reflexivity|].
  destruct (starts_with "rococo" n); [right; right; right; reflexivity|].
  left; reflexivity.
Qed.

Section ChainSpecProofs.
Variable config : string -> result unit string.
Variable from_json_file : SpecKind -> string -> result string string.
Variables is_kusama is_westend is_rococo is_wococo is_dev : string -> bool.

Abbreviation load_spec_ :=
  (load_spec config from_json_file is_kusama is_westend is_rococo is_wococo).
Abbreviation load_json_ :=
  (load_json from_json_file is_kusama is_westend is_rococo is_wococo).

(** X1: with an empty chain id, [load_spec] loads the built-in spec of one
    of the four known chains, chosen from the executable's name; it never
    reads a file. *)
Theorem load_spec_empty_id_builtin feat flags exe :
  let n := match get_exec_name exe with Some n => n | None => "" end in
  default_chain n ∈ KNOWN_CHAINS /\
  load_spec_ feat flags exe "" = builtin config (default_chain n +:+ "_config").
Proof.
  intros n. unfold load_spec. simpl. fold n.
  destruct feat as [K P R W].
  destruct (default_chain_cases n) as [E|[E|[E|E]]]; rewrite E;
    (split; [unfold KNOWN_CHAINS; set_solver|]);
    destruct K, P, R, W; reflexivity.
Qed.

(** X2: the chain chosen for an empty id is the known chain that the
    executable's name starts with ("kusama-node" gives kusama); the four
    names are not prefixes of each other, so at most one matches. *)
Theorem default_chain_prefix (n c : string) :
  c ∈ KNOWN_CHAINS -> starts_with c n = true -> default_chain n = c.
Proof.
  intros Hc Hs.
  assert (Hx : forall d, starts_with d n = true ->
                         starts_with d c = true \/ starts_with c d = true)
    by (intros d Hd; exact (starts_with_both _ _ _ Hd Hs)).
  unfold KNOWN_CHAINS in Hc. rewrite !elem_of_cons, elem_of_nil in Hc.
  unfold default_chain, KNOWN_CHAINS.
  destruct Hc as [->|[->|[->|[->|[]]]]]; cbn -[starts_with];
    repeat match goal with
    | |- context [if starts_with ?d n then _ else _] =>
        let E := fresh "E" in
        destruct (starts_with d n) eqn:E;
        [try reflexivity; destruct (Hx _ E) as [H|H]; discriminate H|]
    end; congruence.
Qed.

Lemma load_spec_nonempty feat flags exe (id : string) :
  String.eqb id "" = false -> load_spec_ feat flags exe id = load_spec_id config from_json_file is_kusama is_westend is_rococo is_wococo feat flags id.
Proof. intros H. unfold load_spec. rewrite H. reflexivity. Qed.

Ltac load_spec_compute Hj :=
  rewrite load_spec_nonempty by reflexivity;
  unfold load_spec_id; rewrite Hj; reflexivity.

(** X3: a build without the [kusama-native] ([rococo-native],
    [westend-native]) feature rejects every chain id that starts with
    "kusama-" ("rococo-", "westend-") and does not end in ".json", with an
    error naming the id and the missing feature. *)
Theorem load_spec_feature_gated feat flags exe (r : string) :
  (kusama_native feat = false -> ends_with ".json" ("kusama-" +:+ r) = false ->
   load_spec_ feat flags exe ("kusama-" +:+ r) =
     Err ("`" +:+ ("kusama-" +:+ r) +:+ "` only supported with `kusama-native` feature enabled.")) /\
  (rococo_native feat = false -> ends_with ".json" ("rococo-" +:+ r) = false ->
   load_spec_ feat flags exe ("rococo-" +:+ r) =
     Err ("`" +:+ ("rococo-" +:+ r) +:+ "` only supported with `rococo-native` feature enabled.")) /\
  (westend_native feat = false -> ends_with ".json" ("westend-" +:+ r) = false ->
   load_spec_ feat flags exe ("westend-" +:+ r) =
     Err ("`" +:+ ("westend-" +:+ r) +:+ "` only supported with `westend-native` feature enabled.")).
Proof.
  destruct feat as [K P R W]; destruct K, P, R, W; simpl;
    (split; [|split]); intros HF Hj; try discriminate HF; load_spec_compute Hj.
Qed.

(** X4: the "wococo-" guard has no ".json" exception: without
    [rococo-native] even a file name such as "wococo-spec.json" is rejected,
    while without [kusama-native] an id "kusama-....json" is read as a chain
    spec file. *)
Theorem load_spec_wococo_json_rejected feat flags exe (r : string) :
  (rococo_native feat = false ->
   load_spec_ feat flags exe ("wococo-" +:+ r) =
     Err ("`" +:+ ("wococo-" +:+ r) +:+ "` only supported with `rococo-native` feature enabled.")) /\
  (kusama_native feat = false -> ends_with ".json" ("kusama-" +:+ r) = true ->
   load_spec_ feat flags exe ("kusama-" +:+ r) = load_json_ flags ("kusama-" +:+ r)).
Proof.
  destruct feat as [K P R W]; destruct K, P, R, W; simpl;
    split; intros HF; try discriminate HF.
  all: try (intros Hj; load_spec_compute Hj).
  all: rewrite load_spec_nonempty by reflexivity; unfold load_spec_id;
      destruct (ends_with ".json" ("wococo-" +:+ r)); reflexivity.
Qed.

(** X5: without the [polkadot-native] feature the ids "dev",
    "polkadot-dev", "polkadot-local" and "polkadot-staging" have no guard
    and are read as paths of chain spec files. *)
Theorem load_spec_polkadot_dev_as_path feat flags exe :
  polkadot_native feat = false ->
  load_spec config from_json_file is_kusama is_westend is_rococo is_wococo feat flags exe "dev" =
    load_json from_json_file is_kusama is_westend is_rococo is_wococo flags "dev" /\
  load_spec config from_json_file is_kusama is_westend is_rococo is_wococo feat flags exe "polkadot-dev" =
    load_json from_json_file is_kusama is_westend is_rococo is_wococo flags "polkadot-dev" /\
  load_spec config from_json_file is_kusama is_westend is_rococo is_wococo feat flags exe "polkadot-local" =
    load_json from_json_file is_kusama is_westend is_rococo is_wococo flags "polkadot-local" /\
  load_spec config from_json_file is_kusama is_westend is_rococo is_wococo feat flags exe "polkadot-staging" =
    load_json from_json_file is_kusama is_westend is_rococo is_wococo flags "polkadot-staging".
Proof.
  destruct feat as [K P R W]; simpl. intros ->.
  destruct K, R, W; repeat split; reflexivity.
Qed.

(** X6: the five chain names "polkadot", "kusama", "westend", "rococo"
    and "wococo" always load their built-in spec, whatever the features. *)
Theorem load_spec_known_names feat flags exe :
  load_spec_ feat flags exe "polkadot" = builtin config "polkadot_config" /\
  load_spec_ feat flags exe "kusama" = builtin config "kusama_config" /\
  load_spec_ feat flags exe "westend" = builtin config "westend_config" /\
  load_spec_ feat flags exe "rococo" = builtin config "rococo_config" /\
  load_spec_ feat flags exe "wococo" = builtin config "wococo_config".
Proof.
  destruct feat as [K P R W]. destruct K, P, R, W; repeat split; reflexivity.
Qed.

(** X7: for a chain spec file, [--force-rococo] wins over everything (also
    over [--force-kusama] and a Kusama id): the file is read again as a
    Rococo spec; a file whose id is of none of the known variants, without
    any force flag, is used as first read, as a Polkadot spec; a file that
    cannot be read fails with the reader's error. *)
Theorem load_json_precedence flags (path id : string) :
  (from_json_file PolkadotSpec path = Ok id -> force_rococo flags = true ->
   load_json from_json_file is_kusama is_westend is_rococo is_wococo flags path =
     match from_json_file RococoSpec path with
     | Ok _ => Ok (FromJson RococoSpec path)
     | Err e => Err e
     end) /\
  (from_json_file PolkadotSpec path = Ok id ->
   flags = mkRunFlags false false false ->
   is_rococo id = false -> is_wococo id = false ->
   is_kusama id = false -> is_westend id = false ->
   load_json from_json_file is_kusama is_westend is_rococo is_wococo flags path = Ok (FromJson PolkadotSpec path)) /\
  (forall e, from_json_file PolkadotSpec path = Err e -> load_json from_json_file is_kusama is_westend is_rococo is_wococo flags path = Err e).
Proof.
  unfold load_json, reread. split; [|split].
  - intros Hf Hr. rewrite Hf, Hr. reflexivity.
  - intros Hf -> H1 H2 H3 H4. rewrite Hf. simpl. rewrite H1, H2, H3, H4. reflexivity.
  - intros e Hf. rewrite Hf. reflexivity.
Qed.

(** X8: [native_runtime_version] panics exactly when the [polkadot-native]
    feature is off and no enabled runtime feature matches the chain; with
    [polkadot-native] on, a chain matched by no enabled feature gets the
    Polkadot runtime version. *)
Theorem native_runtime_version_panics feat (spec_id : string) :
  ((exists m, native_runtime_version is_kusama is_westend is_rococo is_wococo feat spec_id
              = Panics m) <->
   (kusama_native feat && is_kusama spec_id = false /\
    westend_native feat && is_westend spec_id = false /\
    rococo_native feat && (is_rococo spec_id || is_wococo spec_id) = false /\
    polkadot_native feat = false)) /\
  (kusama_native feat && is_kusama spec_id = false ->
   westend_native feat && is_westend spec_id = false ->
   rococo_native feat && (is_rococo spec_id || is_wococo spec_id) = false ->
   polkadot_native feat = true ->
   native_runtime_version is_kusama is_westend is_rococo is_wococo feat spec_id
   = Returns PolkadotRuntime).
Proof.
  unfold native_runtime_version. split.
  - destruct (kusama_native feat && is_kusama spec_id),
      (westend_native feat && is_westend spec_id),
      (rococo_native feat && (is_rococo spec_id || is_wococo spec_id)),
      (polkadot_native feat);
      split; try (intros [m Hm]; discriminate Hm);
      try (intros (H1 & H2 & H3 & H4); discriminate); eauto.
  - intros -> -> -> ->. reflexivity.
Qed.

(** X9: [benchmark] and [try-runtime] refuse a chain that is not a
    development chain, before choosing any runtime, with the error
    "can only use subcommand with --chain [...], got <id>". *)
Theorem dev_only_subcommands feat (spec_id : string) :
  is_dev spec_id = false ->
  benchmark_cmd is_kusama is_westend is_dev feat (Ok spec_id) =
    Returns (Err (Other (DEV_ONLY_ERROR_PATTERN +:+ spec_id))) /\
  try_runtime_cmd is_kusama is_westend is_dev feat (Ok spec_id) (Ok tt) =
    Returns (Err (Other (DEV_ONLY_ERROR_PATTERN +:+ spec_id))).
Proof.
  intros Hd. unfold benchmark_cmd, try_runtime_cmd, ensure_dev. rewrite Hd.
  split; reflexivity.
Qed.

(** X10: [benchmark] has no Rococo branch: on a Rococo development chain
    it runs the Polkadot runtime's benchmark even with [rococo-native]
    enabled, while [native_runtime_version] gives the Rococo runtime for
    the same chain. *)
Theorem benchmark_rococo_uses_polkadot feat (spec_id : string) :
  is_dev spec_id = true -> is_rococo spec_id = true ->
  is_kusama spec_id = false -> is_westend spec_id = false ->
  rococo_native feat = true -> polkadot_native feat = true ->
  benchmark_cmd is_kusama is_westend is_dev feat (Ok spec_id) = Returns (Ok PolkadotRuntime) /\
  native_runtime_version is_kusama is_westend is_rococo is_wococo feat spec_id
    = Returns RococoRuntime.
Proof.
  intros Hd Hr Hk Hw HR HP.
  unfold benchmark_cmd, ensure_dev, dev_runtime_dispatch, native_runtime_version.
  rewrite Hd, Hr, Hk, Hw, HR, HP, !andb_false_r. split; reflexivity.
Qed.

End ChainSpecProofs.



Section GateProofs.
Variables RuntimeBlob Artifact : Type.
Variable decompress : list Byte.byte -> N -> N * result (list Byte.byte) string.
Variable prevalidate : list Byte.byte -> N * result RuntimeBlob string.
Variable prepare : RuntimeBlob -> N * result Artifact string.
Variable WASM_CODE : list Byte.byte.
Variable log_gap : N.

Abbreviation hpc_ := (host_perf_check RuntimeBlob Artifact decompress prevalidate prepare WASM_CODE log_gap).

(** The gate never changes the executable, the current directory or the
    directories that refuse file creation. *)
Lemma host_perf_check_frame (w : World) r w' :
  hpc_ w = (r, w') ->
  w_exe w' = w_exe w /\ w_cwd w' = w_cwd w /\ w_readonly w' = w_readonly w.
Proof.
  intros H. unfold_m.
  destruct (bool_decide _); [injection H as _ <-; auto|].
  destruct (decompress WASM_CODE CODE_SIZE_LIMIT) as [c1 [code|e1]]; simpl in H;
    [|injection H as _ <-; auto].
  destruct (prevalidate code) as [c2 [blob|e2]]; simpl in H;
    [|injection H as _ <-; auto].
  destruct (prepare blob) as [c3 [art|e3]]; simpl in H;
    [|injection H as _ <-; auto].
  destruct (duration_le _ _); simpl in H; [|injection H as _ <-; auto].
  destruct (bool_decide (is_Some _)); simpl in H;
    [|destruct (bool_decide (_ ∈ _)); simpl in H]; injection H as _ <-; auto.
Qed.

(** A gate that returns [Ok] leaves the sentinel file in place, unless its
    directory refuses file creation. *)
Lemma host_perf_check_ok_sentinel (w : World) w' :
  hpc_ w = (Ok tt, w') -> removelast (sentinel w) ∉ w_readonly w ->
  is_Some (w_fs w' !! sentinel w).
Proof.
  intros H Hro. unfold sentinel in *. unfold_m.
  destruct (bool_decide _) eqn:Ex.
  { injection H as <-. simpl. exact (bool_decide_eq_true_1 _ Ex). }
  destruct (decompress WASM_CODE CODE_SIZE_LIMIT) as [c1 [code|e1]]; simpl in H;
    [|discriminate H].
  destruct (prevalidate code) as [c2 [blob|e2]]; simpl in H; [|discriminate H].
  destruct (prepare blob) as [c3 [art|e3]]; simpl in H; [|discriminate H].
  destruct (duration_le _ _); simpl in H; [|discriminate H].
  rewrite Ex in H. simpl in H.
  rewrite bool_decide_eq_false_2 in H by exact Hro.
  injection H as <-. simpl. rewrite lookup_insert_eq. eexists; reflexivity.
Qed.

(** X12: the gate is idempotent in effect: after a run that returns [Ok]
    (and could create its sentinel), running it again only logs that the
    check was skipped. *)
Theorem host_perf_check_second_run_skipped (w : World) w1 :
  hpc_ w = (Ok tt, w1) -> removelast (sentinel w) ∉ w_readonly w ->
  hpc_ w1 = (Ok tt, emit (EvLog "Performance check skipped: already passed") w1).
Proof.
  intros H Hro.
  pose proof (host_perf_check_ok_sentinel w w1 H Hro) as Hs.
  destruct (host_perf_check_frame w _ w1 H) as (He & Hc & _).
  unfold sentinel in Hs. rewrite <- He, <- Hc in Hs.
  unfold host_perf_check, bind, current_exe, path_exists, info, ret.
  rewrite bool_decide_eq_true_2 by exact Hs. reflexivity.
Qed.

(** X13: a failing stage stops the pipeline.  With no sentinel, when a
    stage fails the gate returns that stage's error right after it, the
    later stages never run and the sentinel is not opened (running over the
    time limit fails after all three stages); conversely the trace of any
    failed gate is the start log followed by the stages up to the one that
    failed (all three when the time limit is exceeded). *)
Theorem host_perf_check_failure_trace (w : World) :
  (w_fs w !! sentinel w = None ->
   (forall c e, decompress WASM_CODE CODE_SIZE_LIMIT = (c, Err e) ->
      fst (hpc_ w) = Err (Other (MSG_DECOMPRESS +:+ e)) /\
      w_trace (snd (hpc_ w)) =
        w_trace w ++ [EvLog "Running the performance check..."; EvDecompress]) /\
   (forall c1 code c e, decompress WASM_CODE CODE_SIZE_LIMIT = (c1, Ok code) ->
      prevalidate code = (c, Err e) ->
      fst (hpc_ w) = Err (Other (MSG_PREVALIDATE +:+ e)) /\
      w_trace (snd (hpc_ w)) =
        w_trace w ++ [EvLog "Running the performance check..."; EvDecompress;
                      EvPrevalidate]) /\
   (forall c1 code c2 blob c e, decompress WASM_CODE CODE_SIZE_LIMIT = (c1, Ok code) ->
      prevalidate code = (c2, Ok blob) -> prepare blob = (c, Err e) ->
      fst (hpc_ w) = Err (Other (MSG_PREPARE +:+ e)) /\
      w_trace (snd (hpc_ w)) =
        w_trace w ++ [EvLog "Running the performance check..."; EvDecompress;
                      EvPrevalidate; EvPrepare]) /\
   (forall c1 code c2 blob c3 art, decompress WASM_CODE CODE_SIZE_LIMIT = (c1, Ok code) ->
      prevalidate code = (c2, Ok blob) -> prepare blob = (c3, Ok art) ->
      20000000000 < c1 + c2 + c3 ->
      fst (hpc_ w) = Err (Other (time_limit_message (Duration_from_nanos (c1 + c2 + c3)))) /\
      w_trace (snd (hpc_ w)) =
        w_trace w ++ [EvLog "Running the performance check..."; EvDecompress;
                      EvPrevalidate; EvPrepare])) /\
  (forall err w', hpc_ w = (Err err, w') ->
   w_trace w' = w_trace w ++ EvLog "Running the performance check..." ::
     take (match gate_failure_kind err with
           | Some DecompressFailed => 1%nat
           | Some PrevalidateFailed => 2%nat
           | _ => 3%nat
           end) [EvDecompress; EvPrevalidate; EvPrepare]).
Proof.
  split; [exact (host_perf_check_failures RuntimeBlob Artifact decompress prevalidate
                   prepare WASM_CODE log_gap w)|].
  intros err w' H. unfold_m.
  destruct (bool_decide _); [discriminate H|].
  destruct (decompress WASM_CODE CODE_SIZE_LIMIT) as [c1 [code|e1]]; simpl in H.
  2:{ injection H as <- <-.
      replace (gate_failure_kind _) with (Some DecompressFailed)
        by (symmetry; exact (proj1 (starts_with_other_stage e1))). simpl.
      rewrite <- !app_assoc. reflexivity. }
  destruct (prevalidate code) as [c2 [blob|e2]]; simpl in H.
  2:{ injection H as <- <-.
      replace (gate_failure_kind _) with (Some PrevalidateFailed)
        by (symmetry; exact (proj1 (proj2 (starts_with_other_stage e2)))). simpl.
      rewrite <- !app_assoc. reflexivity. }
  destruct (prepare blob) as [c3 [art|e3]]; simpl in H.
  2:{ injection H as <- <-.
      replace (gate_failure_kind _) with (Some PrepareFailed)
        by (symmetry; exact (proj1 (proj2 (proj2 (starts_with_other_stage e3))))). simpl.
      rewrite <- !app_assoc. reflexivity. }
  destruct (duration_le _ _); simpl in H.
  - destruct (bool_decide (is_Some _)); simpl in H;
      [|destruct (bool_decide (_ ∈ _))]; discriminate H.
  - injection H as <- <-.
    replace (gate_failure_kind _) with (Some TooSlow)
      by (symmetry; exact (proj2 (proj2 (proj2 (starts_with_other_stage _))))). simpl.
    rewrite <- !app_assoc. reflexivity.
Qed.

End GateProofs.

Section NodeProofs.
Variable node : Cli -> NodeStart.



End NodeProofs.

(** ** Witnesses of the properties above *)

Lemma default_chain_prefix_witness :
  "kusama" ∈ KNOWN_CHAINS /\ starts_with "kusama" "kusama-node" = true /\
  default_chain "kusama-node" = "kusama".
Proof.
  assert (Hc : "kusama" ∈ KNOWN_CHAINS) by (unfold KNOWN_CHAINS; set_solver).
  split; [exact Hc|split; [reflexivity|]].
  apply (default_chain_prefix "kusama-node" "kusama"); [exact Hc|reflexivity].
Defined.

Lemma load_spec_feature_gated_witness :
  kusama_native (mkFeatures false true false false) = false /\
  ends_with ".json" ("kusama-" +:+ "dev") = false /\
  load_spec demo_config demo_from_json demo_is_kusama demo_is_westend demo_is_rococo
    demo_is_wococo (mkFeatures false true false false) demo_flags (Some demo_exe)
    ("kusama-" +:+ "dev") =
  Err ("`" +:+ ("kusama-" +:+ "dev") +:+ "` only supported with `kusama-native` feature enabled.").
Proof.
  split; [reflexivity|split; [reflexivity|]].
  apply (proj1 (load_spec_feature_gated demo_config demo_from_json demo_is_kusama
    demo_is_westend demo_is_rococo demo_is_wococo (mkFeatures false true false false)
    demo_flags (Some demo_exe) "dev")); reflexivity.
Defined.

Lemma load_spec_wococo_json_rejected_witness :
  rococo_native (mkFeatures false true false false) = false /\
  load_spec demo_config demo_from_json demo_is_kusama demo_is_westend demo_is_rococo
    demo_is_wococo (mkFeatures false true false false) demo_flags (Some demo_exe)
    ("wococo-" +:+ "spec.json") =
  Err ("`" +:+ ("wococo-" +:+ "spec.json") +:+ "` only supported with `rococo-native` feature enabled.") /\
  ends_with ".json" ("kusama-" +:+ "spec.json") = true /\
  load_spec demo_config demo_from_json demo_is_kusama demo_is_westend demo_is_rococo
    demo_is_wococo (mkFeatures false true false false) demo_flags (Some demo_exe)
    ("kusama-" +:+ "spec.json") =
  load_json demo_from_json demo_is_kusama demo_is_westend demo_is_rococo demo_is_wococo
    demo_flags ("kusama-" +:+ "spec.json").
Proof.
  split; [reflexivity|split; [|split; [reflexivity|]]].
  - apply (proj1 (load_spec_wococo_json_rejected demo_config demo_from_json demo_is_kusama
      demo_is_westend demo_is_rococo demo_is_wococo (mkFeatures false true false false)
      demo_flags (Some demo_exe) "spec.json")); reflexivity.
  - apply (proj2 (load_spec_wococo_json_rejected demo_config demo_from_json demo_is_kusama
      demo_is_westend demo_is_rococo demo_is_wococo (mkFeatures false true false false)
      demo_flags (Some demo_exe) "spec.json")); reflexivity.
Defined.

Lemma load_spec_polkadot_dev_as_path_witness :
  polkadot_native (mkFeatures true false true true) = false /\
  load_spec demo_config demo_from_json demo_is_kusama demo_is_westend demo_is_rococo
    demo_is_wococo (mkFeatures true false true true) demo_flags (Some demo_exe) "dev" =
  load_json demo_from_json demo_is_kusama demo_is_westend demo_is_rococo demo_is_wococo
    demo_flags "dev".
Proof.
  split; [reflexivity|].
  exact (proj1 (load_spec_polkadot_dev_as_path demo_config demo_from_json demo_is_kusama
    demo_is_westend demo_is_rococo demo_is_wococo (mkFeatures true false true true)
    demo_flags (Some demo_exe) eq_refl)).
Defined.

Lemma load_json_precedence_witness :
  demo_from_json PolkadotSpec "spec.json" = Ok "local_testnet" /\
  load_json demo_from_json demo_is_kusama demo_is_westend demo_is_rococo demo_is_wococo
    (mkRunFlags true true false) "spec.json" =
  match demo_from_json RococoSpec "spec.json" with
  | Ok _ => Ok (FromJson RococoSpec "spec.json")
  | Err e => Err e
  end /\
  load_json demo_from_json demo_is_kusama demo_is_westend demo_is_rococo demo_is_wococo
    demo_flags "spec.json" = Ok (FromJson PolkadotSpec "spec.json") /\
  load_json demo_from_json demo_is_kusama demo_is_westend demo_is_rococo demo_is_wococo
    demo_flags "missing.json" = Err "No such file or directory (os error 2)".
Proof.
  split; [reflexivity|split; [|split]].
  - apply (proj1 (load_json_precedence demo_from_json demo_is_kusama demo_is_westend
      demo_is_rococo demo_is_wococo (mkRunFlags true true false) "spec.json"
      "local_testnet")); reflexivity.
  - apply (proj1 (proj2 (load_json_precedence demo_from_json demo_is_kusama
      demo_is_westend demo_is_rococo demo_is_wococo demo_flags "spec.json"
      "local_testnet"))); reflexivity.
  - apply (proj2 (proj2 (load_json_precedence demo_from_json demo_is_kusama
      demo_is_westend demo_is_rococo demo_is_wococo demo_flags "missing.json"
      "local_testnet"))); reflexivity.
Defined.

Lemma native_runtime_version_panics_witness :
  (exists m, native_runtime_version demo_is_kusama demo_is_westend demo_is_rococo
     demo_is_wococo (mkFeatures false false true false) "kusama" = Panics m) /\
  native_runtime_version demo_is_kusama demo_is_westend demo_is_rococo demo_is_wococo
    (mkFeatures false true false false) "kusama" = Returns PolkadotRuntime.
Proof.
  split.
  - apply (proj1 (native_runtime_version_panics demo_is_kusama demo_is_westend
      demo_is_rococo demo_is_wococo (mkFeatures false false true false) "kusama")).
    repeat split; reflexivity.
  - apply (proj2 (native_runtime_version_panics demo_is_kusama demo_is_westend
      demo_is_rococo demo_is_wococo (mkFeatures false true false false) "kusama"));
      reflexivity.
Defined.

Lemma dev_only_subcommands_witness :
  demo_is_dev "kusama" = false /\
  benchmark_cmd demo_is_kusama demo_is_westend demo_is_dev
    (mkFeatures true true true true) (Ok "kusama") =
    Returns (Err (Other (DEV_ONLY_ERROR_PATTERN +:+ "kusama"))) /\
  try_runtime_cmd demo_is_kusama demo_is_westend demo_is_dev
    (mkFeatures true true true true) (Ok "kusama") (Ok tt) =
    Returns (Err (Other (DEV_ONLY_ERROR_PATTERN +:+ "kusama"))).
Proof.
  split; [reflexivity|].
  apply (dev_only_subcommands demo_is_kusama demo_is_westend demo_is_dev
    (mkFeatures true true true true) "kusama"); reflexivity.
Defined.

Lemma benchmark_rococo_uses_polkadot_witness :
  demo_is_dev "rococo-dev" = true /\
  benchmark_cmd demo_is_kusama demo_is_westend demo_is_dev
    (mkFeatures false true true false) (Ok "rococo-dev") = Returns (Ok PolkadotRuntime) /\
  native_runtime_version demo_is_kusama demo_is_westend demo_is_rococo demo_is_wococo
    (mkFeatures false true true false) "rococo-dev" = Returns RococoRuntime.
Proof.
  split; [reflexivity|].
  apply (benchmark_rococo_uses_polkadot demo_is_kusama demo_is_westend demo_is_rococo
    demo_is_wococo demo_is_dev (mkFeatures false true true false) "rococo-dev");
    reflexivity.
Defined.

Lemma host_perf_check_second_run_skipped_witness :
  demo_hpc 1 1 1 true demo_gate_world =
    (Ok tt, snd (demo_hpc 1 1 1 true demo_gate_world)) /\
  (removelast (sentinel demo_gate_world) ∉ w_readonly demo_gate_world) /\
  demo_hpc 1 1 1 true (snd (demo_hpc 1 1 1 true demo_gate_world)) =
    (Ok tt, emit (EvLog "Performance check skipped: already passed")
              (snd (demo_hpc 1 1 1 true demo_gate_world))).
Proof.
  assert (H1 : demo_hpc 1 1 1 true demo_gate_world =
                 (Ok tt, snd (demo_hpc 1 1 1 true demo_gate_world))) by reflexivity.
  assert (H2 : removelast (sentinel demo_gate_world) ∉ w_readonly demo_gate_world)
    by apply not_elem_of_nil.
  split; [exact H1|split; [exact H2|]].
  exact (host_perf_check_second_run_skipped unit unit (demo_decompress 1 true)
    (demo_prevalidate 1) (demo_prepare 1) [] demo_log_gap demo_gate_world _ H1 H2).
Defined.

Lemma host_perf_check_failure_trace_witness :
  w_fs demo_gate_world !! sentinel demo_gate_world = None /\
  demo_prevalidate 1 [] = (1, Ok tt) /\
  demo_prepare 1 tt = (1, Ok tt) /\
  fst (demo_hpc 30000000000 1 1 true demo_gate_world) =
    Err (Other (time_limit_message (Duration_from_nanos (30000000000 + 1 + 1)))) /\
  w_trace (snd (demo_hpc 30000000000 1 1 true demo_gate_world)) =
    [EvLog "Running the performance check..."; EvDecompress; EvPrevalidate; EvPrepare] /\
  demo_hpc 1 1 1 false demo_gate_world =
    (Err (Other (MSG_DECOMPRESS +:+ "corrupt stream")),
     snd (demo_hpc 1 1 1 false demo_gate_world)) /\
  w_trace (snd (demo_hpc 1 1 1 false demo_gate_world)) =
    [EvLog "Running the performance check..."; EvDecompress].
Proof.
  assert (Hs : w_fs demo_gate_world !! sentinel demo_gate_world = None)
    by (vm_compute; reflexivity).
  destruct (proj2 (proj2 (proj2 (proj1 (host_perf_check_failure_trace unit unit
    (demo_decompress 30000000000 true) (demo_prevalidate 1) (demo_prepare 1) []
    demo_log_gap demo_gate_world) Hs))) 30000000000 [] 1 tt 1 tt
    eq_refl eq_refl eq_refl ltac:(lia)) as [Hr Ht].
  assert (H1 : demo_hpc 1 1 1 false demo_gate_world =
    (Err (Other (MSG_DECOMPRESS +:+ "corrupt stream")),
     snd (demo_hpc 1 1 1 false demo_gate_world))) by reflexivity.
  split; [exact Hs|split; [reflexivity|split; [reflexivity|]]].
  split; [exact Hr|split; [exact Ht|split; [exact H1|]]].
  exact (proj2 (host_perf_check_failure_trace unit unit (demo_decompress 1 false)
    (demo_prevalidate 1) (demo_prepare 1) [] demo_log_gap demo_gate_world) _ _ H1).
Defined.


